(** * MeshGatewayController: ownership-guarded reconciliation of a MeshGateway

    A shallow embedding of
    [control-plane/controllers/resources/mesh_gateway_controller.go]
    together with the properties its specification states about it.

    The Kubernetes API server reached through [r.Client] is an explicit
    value of type [Client] that is threaded through every call; Go's
    [(T, error)] results become [result T]; a Go interface value
    [client.Object] becomes the sum type [Object], and the type assertions
    of the source become matches on its constructors. *)

From stdpp Require Import gmap strings list fin_maps.
From Stdlib Require Import ZArith.

Open Scope string_scope.

(** ** Errors *)

(** Go [error] values as the controller can see them.  [Errorf] is
    [fmt.Errorf("<msg>: %w", cause)]; [ErrorNew] is an error built from a
    message alone; [Panic] stands for a Go run-time panic (a nil
    dereference, an index out of range), which is not an [error] in Go but
    ends the call all the same. *)
Inductive error : Type :=
| errResourceNotOwned
| StatusNotFound
| StatusAlreadyExists
| StatusError (reason : string)
| ErrorNew (msg : string)
| Panic (msg : string)
| Errorf (msg : string) (cause : error).

Inductive result (A : Type) : Type :=
| Ok (a : A)
| Err (e : error).
Arguments Ok {A} a.
Arguments Err {A} e.

#[global] Instance error_eq_dec : EqDecision error.
Proof. solve_decision. Defined.

#[global] Instance result_eq_dec `{EqDecision A} : EqDecision (result A).
Proof. solve_decision. Defined.

(** [k8serr.IsNotFound]: looks through wrapping for a status error whose
    reason is NotFound. *)
Fixpoint IsNotFound (err : error) : bool :=
  match err with
  | StatusNotFound => true
  | Errorf _ cause => IsNotFound cause
  | _ => false
  end.

(** [client.IgnoreNotFound], on an error that did occur: [None] is Go's
    [nil]. *)
Definition IgnoreNotFound (err : error) : option error :=
  if IsNotFound err then None else Some err.

(** ** Kubernetes objects *)

Record GroupVersion := { gvGroup : string; gvVersion : string }.

Record GroupVersionKind :=
  { gvkGroup : string; gvkVersion : string; gvkKind : string }.

(** [metav1.OwnerReference]; [APIVersion] is kept in its parsed form. *)
Record OwnerReference := {
  orAPIVersion : GroupVersion;
  orKind : string;
  orName : string;
  orUID : string;
  orController : option bool;
  orBlockOwnerDeletion : option bool
}.

(** [metav1.ObjectMeta].  A nil map and an empty map are one value, as they
    are for [equality.Semantic]. *)
Record ObjectMeta := {
  Name : string;
  Namespace : string;
  UID : string;
  Labels : gmap string string;
  Annotations : gmap string string;
  OwnerReferences : list OwnerReference
}.

Record ServicePort := {
  spName : string;
  spProtocol : string;
  spPort : Z;
  spTargetPort : Z;
  spNodePort : Z
}.

Record ServiceSpec := {
  Ports : list ServicePort;
  Selector : gmap string string;
  Type_ : string
}.

Record ServiceT := { svcMeta : ObjectMeta; svcSpec : ServiceSpec }.

Record ServiceAccountT := { saMeta : ObjectMeta }.

Record RoleT := { roleMeta : ObjectMeta; roleRules : list string }.

Record RoleBindingT := {
  rbMeta : ObjectMeta;
  rbSubjects : list string;
  rbRoleRef : string
}.

Record DeploymentT := {
  depMeta : ObjectMeta;
  depReplicas : option Z;
  depTemplate : string
}.

(** The five kinds of children of a MeshGateway. *)
Inductive Kind := ServiceAccount | Role | RoleBinding | Service | Deployment.

(** [client.Object], restricted to the types the controller passes around. *)
Inductive Object :=
| ObjServiceAccount (o : ServiceAccountT)
| ObjRole (o : RoleT)
| ObjRoleBinding (o : RoleBindingT)
| ObjService (o : ServiceT)
| ObjDeployment (o : DeploymentT).

Definition kindOf (o : Object) : Kind :=
  match o with
  | ObjServiceAccount _ => ServiceAccount
  | ObjRole _ => Role
  | ObjRoleBinding _ => RoleBinding
  | ObjService _ => Service
  | ObjDeployment _ => Deployment
  end.

Definition metaOf (o : Object) : ObjectMeta :=
  match o with
  | ObjServiceAccount x => saMeta x
  | ObjRole x => roleMeta x
  | ObjRoleBinding x => rbMeta x
  | ObjService x => svcMeta x
  | ObjDeployment x => depMeta x
  end.

Definition withMeta (o : Object) (m : ObjectMeta) : Object :=
  match o with
  | ObjServiceAccount _ => ObjServiceAccount {| saMeta := m |}
  | ObjRole x => ObjRole {| roleMeta := m; roleRules := roleRules x |}
  | ObjRoleBinding x =>
      ObjRoleBinding {| rbMeta := m; rbSubjects := rbSubjects x;
                        rbRoleRef := rbRoleRef x |}
  | ObjService x => ObjService {| svcMeta := m; svcSpec := svcSpec x |}
  | ObjDeployment x =>
      ObjDeployment {| depMeta := m; depReplicas := depReplicas x;
                       depTemplate := depTemplate x |}
  end.

#[global] Instance GroupVersion_eq_dec : EqDecision GroupVersion.
Proof. solve_decision. Defined.
#[global] Instance GroupVersionKind_eq_dec : EqDecision GroupVersionKind.
Proof. solve_decision. Defined.
#[global] Instance OwnerReference_eq_dec : EqDecision OwnerReference.
Proof. solve_decision. Defined.
#[global] Instance ObjectMeta_eq_dec : EqDecision ObjectMeta.
Proof. solve_decision. Defined.
#[global] Instance ServicePort_eq_dec : EqDecision ServicePort.
Proof. solve_decision. Defined.
#[global] Instance ServiceSpec_eq_dec : EqDecision ServiceSpec.
Proof. solve_decision. Defined.
#[global] Instance ServiceT_eq_dec : EqDecision ServiceT.
Proof. solve_decision. Defined.
#[global] Instance ServiceAccountT_eq_dec : EqDecision ServiceAccountT.
Proof. solve_decision. Defined.
#[global] Instance RoleT_eq_dec : EqDecision RoleT.
Proof. solve_decision. Defined.
#[global] Instance RoleBindingT_eq_dec : EqDecision RoleBindingT.
Proof. solve_decision. Defined.
#[global] Instance DeploymentT_eq_dec : EqDecision DeploymentT.
Proof. solve_decision. Defined.
#[global] Instance Object_eq_dec : EqDecision Object.
Proof. solve_decision. Defined.
#[global] Instance Kind_eq_dec : EqDecision Kind.
Proof. solve_decision. Defined.

Definition Kind_to_nat (k : Kind) : nat :=
  match k with
  | ServiceAccount => 0 | Role => 1 | RoleBinding => 2
  | Service => 3 | Deployment => 4
  end.

Definition Kind_of_nat (n : nat) : option Kind :=
  match n with
  | 0 => Some ServiceAccount | 1 => Some Role | 2 => Some RoleBinding
  | 3 => Some Service | 4 => Some Deployment | _ => None
  end.

#[global] Instance Kind_countable : Countable Kind.
Proof.
  apply (inj_countable Kind_to_nat Kind_of_nat).
  intros []; reflexivity.
Defined.

(** [client.ObjectKey]: namespace and name. *)
Abbreviation ObjectKey := (string * string)%type.

(** What the API server indexes a child by: its kind and its key. *)
Abbreviation Ref := (Kind * (string * string))%type.

Definition ObjectKeyFromObject (o : Object) : ObjectKey :=
  (Namespace (metaOf o), Name (metaOf o)).

Definition refOf (o : Object) : Ref := (kindOf o, ObjectKeyFromObject o).

(** ** The objects the controller only reads *)

Record ParametersReference := {
  prGroup : string;
  prKind : string;
  prName : string
}.

(** [meshv2beta1.GatewayClass]: cluster-scoped, found by name. *)
Record GatewayClass := {
  gcMeta : ObjectMeta;
  gcControllerName : string;
  ParametersRef : option ParametersReference
}.

(** [meshv2beta1.GatewayClassConfig]; its spec is read by the builder
    only and is kept as an uninterpreted payload. *)
Record GatewayClassConfig := {
  gccMeta : ObjectMeta;
  gccSpec : string
}.

(** [meshv2beta1.MeshGateway], the parent. *)
Record MeshGateway := {
  mgMeta : ObjectMeta;
  GatewayClassName : string;
  mgSpec : string
}.

(** [meshv2beta1.MeshGroup], the API group named in the kubebuilder
    markers of the controller. *)
Definition MeshGroup : string := "mesh.consul.hashicorp.com".

Definition emptyMeta : ObjectMeta :=
  {| Name := ""; Namespace := ""; UID := ""; Labels := ∅;
     Annotations := ∅; OwnerReferences := [] |}.

(** The zero value [&meshv2beta1.GatewayClassConfig{}]. *)
Definition emptyGatewayClassConfig : GatewayClassConfig :=
  {| gccMeta := emptyMeta; gccSpec := "" |}.

#[global] Instance ParametersReference_eq_dec : EqDecision ParametersReference.
Proof. solve_decision. Defined.
#[global] Instance GatewayClass_eq_dec : EqDecision GatewayClass.
Proof. solve_decision. Defined.
#[global] Instance GatewayClassConfig_eq_dec : EqDecision GatewayClassConfig.
Proof. solve_decision. Defined.
#[global] Instance MeshGateway_eq_dec : EqDecision MeshGateway.
Proof. solve_decision. Defined.

(** ** The API server behind [r.Client] *)

(** [runtime.Scheme], as far as the controller consults it: the
    group-version-kinds registered for the Go type [MeshGateway]. *)
Record Scheme := { meshGatewayKinds : list GroupVersionKind }.

(** The cluster as one reconcile sees it.  [objects] holds the children;
    the two class maps hold the cluster-scoped configuration objects.  The
    [...Errors] maps say which requests the server answers with a failure
    that is not "not found" (a timeout, a refused connection, a forbidden
    verb): a request whose target is listed there fails with that reason. *)
Record Client := {
  objects : gmap Ref Object;
  gatewayClasses : gmap string GatewayClass;
  gatewayClassConfigs : gmap string GatewayClassConfig;
  getErrors : gmap Ref string;
  writeErrors : gmap Ref string;
  classGetErrors : gmap string string;
  configGetErrors : gmap string string;
  scheme : Scheme
}.

Definition setObjects (c : Client) (objs : gmap Ref Object) : Client :=
  {| objects := objs;
     gatewayClasses := gatewayClasses c;
     gatewayClassConfigs := gatewayClassConfigs c;
     getErrors := getErrors c;
     writeErrors := writeErrors c;
     classGetErrors := classGetErrors c;
     configGetErrors := configGetErrors c;
     scheme := scheme c |}.

#[global] Instance Scheme_eq_dec : EqDecision Scheme.
Proof. solve_decision. Defined.
#[global] Instance Client_eq_dec : EqDecision Client.
Proof. solve_decision. Defined.

(** ** Calls that may fail and may write *)

(** A call that reads and writes the cluster and returns a value or an
    error.  The cluster state survives an error: nothing is rolled back. *)
Definition M (A : Type) : Type := Client → result A * Client.

Definition retM {A} (a : A) : M A := λ c, (Ok a, c).

Definition failM {A} (e : error) : M A := λ c, (Err e, c).

Definition bindM {A B} (m : M A) (f : A → M B) : M B :=
  λ c, match m c with
       | (Ok a, c') => f a c'
       | (Err e, c') => (Err e, c')
       end.

Definition bindR {A B} (r : result A) (f : A → result B) : result B :=
  match r with
  | Ok a => f a
  | Err e => Err e
  end.

(** A pure computation used inside a call. *)
Definition liftR {A} (r : result A) : M A := λ c, (r, c).

(** [if err != nil { return fmt.Errorf("<msg>: %w", err) }] *)
Definition wrapErr {A} (msg : string) (m : M A) : M A :=
  λ c, match m c with
       | (Ok a, c') => (Ok a, c')
       | (Err e, c') => (Err (Errorf msg e), c')
       end.

Declare Scope call_scope.
Delimit Scope call_scope with M.
Notation "'call' x <- m ; k" := (bindM m (λ x, k))
  (at level 10, x name, m at level 100, k at level 200,
   format "'[v' 'call'  x  <-  m ; '/' k ']'") : call_scope.
Notation "'exec' m ; k" := (bindM m (λ _, k))
  (at level 10, m at level 100, k at level 200,
   format "'[v' 'exec'  m ; '/' k ']'") : call_scope.

(** *** Reads *)

(** [r.Get(ctx, key, target)] for a child of kind [kind]. *)
Definition Get (kind : Kind) (key : ObjectKey) (c : Client) : result Object :=
  match getErrors c !! (kind, key) with
  | Some reason => Err (StatusError reason)
  | None =>
      match objects c !! (kind, key) with
      | Some o => Ok o
      | None => Err StatusNotFound
      end
  end.

Definition GetGatewayClass (name : string) (c : Client) : result GatewayClass :=
  match classGetErrors c !! name with
  | Some reason => Err (StatusError reason)
  | None =>
      match gatewayClasses c !! name with
      | Some gc => Ok gc
      | None => Err StatusNotFound
      end
  end.

Definition GetGatewayClassConfig (name : string) (c : Client)
  : result GatewayClassConfig :=
  match configGetErrors c !! name with
  | Some reason => Err (StatusError reason)
  | None =>
      match gatewayClassConfigs c !! name with
      | Some cfg => Ok cfg
      | None => Err StatusNotFound
      end
  end.

(** *** Writes *)

(** [c.Create]: refused when the server fails the request or the key is
    taken. *)
Definition Create (obj : Object) : M unit :=
  λ c, match writeErrors c !! refOf obj with
       | Some reason => (Err (StatusError reason), c)
       | None =>
           match objects c !! refOf obj with
           | Some _ => (Err StatusAlreadyExists, c)
           | None => (Ok tt, setObjects c (<[refOf obj := obj]> (objects c)))
           end
       end.

(** [c.Update]: refused when the server fails the request or nothing is
    stored at the key. *)
Definition Update (obj : Object) : M unit :=
  λ c, match writeErrors c !! refOf obj with
       | Some reason => (Err (StatusError reason), c)
       | None =>
           match objects c !! refOf obj with
           | Some _ => (Ok tt, setObjects c (<[refOf obj := obj]> (objects c)))
           | None => (Err StatusNotFound, c)
           end
       end.

(** ** controller-runtime: [ctrl.SetControllerReference]

    The controller calls two functions of the controller-runtime library.
    They are not part of this repository; they are written here after the
    library, since what the controller does with a stored object depends
    on them. *)

Definition validateOwner (owner object : ObjectMeta) : result unit :=
  if decide (Namespace owner = "") then Ok tt
  else if decide (Namespace object = "") then
    Err (ErrorNew "cluster-scoped resource must not have a namespace-scoped owner")
  else if decide (Namespace owner = Namespace object) then Ok tt
  else Err (ErrorNew "cross-namespace owner references are disallowed").

(** [apiutil.GVKForObject] at the Go type [MeshGateway]. *)
Definition GVKForObject (s : Scheme) : result GroupVersionKind :=
  match meshGatewayKinds s with
  | [] => Err (ErrorNew "no kind is registered for the type MeshGateway")
  | [gvk] => Ok gvk
  | _ :: _ :: _ =>
      Err (ErrorNew "multiple group-version-kinds associated with type MeshGateway")
  end.

Definition referSameObject (a b : OwnerReference) : bool :=
  bool_decide (gvGroup (orAPIVersion a) = gvGroup (orAPIVersion b))
  && bool_decide (orKind a = orKind b)
  && bool_decide (orName a = orName b).

(** [metav1.GetControllerOf]: the first reference flagged as controller. *)
Fixpoint GetControllerOf (owners : list OwnerReference) : option OwnerReference :=
  match owners with
  | [] => None
  | r :: rest =>
      if bool_decide (orController r = Some true) then Some r
      else GetControllerOf rest
  end.

(** Replace the first reference to the same object, or append. *)
Fixpoint upsertOwnerRef (ref : OwnerReference) (owners : list OwnerReference)
  : list OwnerReference :=
  match owners with
  | [] => [ref]
  | r :: rest =>
      if referSameObject r ref then ref :: rest
      else r :: upsertOwnerRef ref rest
  end.

Definition controllerRef (owner : MeshGateway) (gvk : GroupVersionKind)
  : OwnerReference :=
  {| orAPIVersion := {| gvGroup := gvkGroup gvk; gvVersion := gvkVersion gvk |};
     orKind := gvkKind gvk;
     orName := Name (mgMeta owner);
     orUID := UID (mgMeta owner);
     orController := Some true;
     orBlockOwnerDeletion := Some true |}.

Definition setOwnerReferences (m : ObjectMeta) (owners : list OwnerReference)
  : ObjectMeta :=
  {| Name := Name m; Namespace := Namespace m; UID := UID m;
     Labels := Labels m; Annotations := Annotations m;
     OwnerReferences := owners |}.

(** The Go function mutates [controlled] in place and returns an error or
    nil; here it returns the mutated object. *)
Definition SetControllerReference
    (owner : MeshGateway) (controlled : Object) (s : Scheme) : result Object :=
  bindR (validateOwner (mgMeta owner) (metaOf controlled)) (λ _,
  bindR (GVKForObject s) (λ gvk,
    let ref := controllerRef owner gvk in
    let owners := OwnerReferences (metaOf controlled) in
    match GetControllerOf owners with
    | Some existing =>
        if negb (referSameObject existing ref) then
          Err (ErrorNew "Object is already owned by another controller")
        else
          Ok (withMeta controlled
                (setOwnerReferences (metaOf controlled) (upsertOwnerRef ref owners)))
    | None =>
        Ok (withMeta controlled
              (setOwnerReferences (metaOf controlled) (upsertOwnerRef ref owners)))
    end)).

(** ** controller-runtime: [controllerutil.CreateOrUpdate] *)

Inductive OperationResult :=
| OperationResultNone
| OperationResultCreated
| OperationResultUpdated.

(** A [MutateFn] is a closure over the object; here it maps the object to
    its mutated form. *)
Definition MutateFn : Type := Object → result Object.

(** [func() error { return nil }] *)
Definition nopMutate : MutateFn := λ obj, Ok obj.

Definition mutate (f : MutateFn) (key : ObjectKey) (obj : Object) : result Object :=
  bindR (f obj) (λ obj',
    if decide (ObjectKeyFromObject obj' = key) then Ok obj'
    else Err (ErrorNew "MutateFn cannot mutate object name and/or object namespace")).

(** [CreateOrUpdate] first reads the stored object INTO [obj].  When
    nothing is stored, [obj] keeps the caller's content, [f] runs and the
    object is created.  When something is stored, [obj] now holds the
    stored object, [f] runs on it, and an update is sent only if [f]
    changed it. *)
Definition CreateOrUpdate (obj : Object) (f : MutateFn) : M OperationResult :=
  λ c,
    let key := ObjectKeyFromObject obj in
    match Get (kindOf obj) key c with
    | Err err =>
        if negb (IsNotFound err) then (Err err, c)
        else
          match mutate f key obj with
          | Err e => (Err e, c)
          | Ok obj' =>
              match Create obj' c with
              | (Err e, c') => (Err e, c')
              | (Ok _, c') => (Ok OperationResultCreated, c')
              end
          end
    | Ok existing =>
        match mutate f key existing with
        | Err e => (Err e, c)
        | Ok obj' =>
            if decide (existing = obj') then (Ok OperationResultNone, c)
            else
              match Update obj' c with
              | (Err e, c') => (Err e, c')
              | (Ok _, c') => (Ok OperationResultUpdated, c')
              end
        end
    end.

(** ** The controller *)

(** *** [areServicesEqual] and [mergeService] *)

(** A pointer to a [corev1.Service] is [option ServiceT]; [None] is nil. *)

(** The loop [for i, port := range a.Spec.Ports] with its index into
    [b.Spec.Ports]. *)
Fixpoint portsEqualFrom (i : nat) (aPorts bPorts : list ServicePort) : result bool :=
  match aPorts with
  | [] => Ok true
  | port :: rest =>
      match bPorts !! i with
      | None => Err (Panic "index out of range")
      | Some otherPort =>
          if negb (bool_decide (spPort port = spPort otherPort))
             || negb (bool_decide (spProtocol port = spProtocol otherPort))
          then Ok false
          else portsEqualFrom (S i) rest bPorts
      end
  end.

Definition areServicesEqual (a b : option ServiceT) : result bool :=
  match a, b with
  | None, _ | _, None => Ok true
  | Some a, Some b =>
      if negb (bool_decide (Annotations (svcMeta a) = Annotations (svcMeta b)))
      then Ok false
      else if negb (length (Ports (svcSpec b)) =? length (Ports (svcSpec a)))%nat
      then Ok false
      else portsEqualFrom 0 (Ports (svcSpec a)) (Ports (svcSpec b))
  end.

Definition setAnnotations (m : ObjectMeta) (a : gmap string string) : ObjectMeta :=
  {| Name := Name m; Namespace := Namespace m; UID := UID m;
     Labels := Labels m; Annotations := a;
     OwnerReferences := OwnerReferences m |}.

Definition setPorts (s : ServiceSpec) (ports : list ServicePort) : ServiceSpec :=
  {| Ports := ports; Selector := Selector s; Type_ := Type_ s |}.

(** [to] is mutated in place and returned. *)
Definition mergeService (from to : option ServiceT) : result (option ServiceT) :=
  bindR (areServicesEqual from to) (λ equal,
    if equal then Ok to
    else
      match to, from with
      | Some t, Some f =>
          Ok (Some {| svcMeta := setAnnotations (svcMeta t) (Annotations (svcMeta f));
                      svcSpec := setPorts (svcSpec t) (Ports (svcSpec f)) |})
      | _, _ => Err (Panic "nil pointer dereference")
      end).

(** *** [opIfNewOrOwned] *)

Definition ownedObjectOp : Type := option Object → Object → M unit.

(** The loop over [scanTarget.GetOwnerReferences()]. *)
Fixpoint ownedBy (gateway : MeshGateway) (owners : list OwnerReference) : bool :=
  match owners with
  | [] => false
  | reference :: rest =>
      if bool_decide (orUID reference = UID (mgMeta gateway))
         && bool_decide (orName reference = Name (mgMeta gateway))
      then true
      else ownedBy gateway rest
  end.

(** [scanTarget] is an empty object of the kind to look for; its kind is
    all that the lookup uses of it. *)
Definition opIfNewOrOwned
    (gateway : MeshGateway) (scanTarget : Kind) (writeSource : Object)
    (op : ownedObjectOp) : M unit :=
  λ c,
    match SetControllerReference gateway writeSource (scheme c) with
    | Err err => (Err err, c)
    | Ok writeSource =>
        let key := (Namespace (metaOf writeSource), Name (metaOf writeSource)) in
        match Get scanTarget key c with
        | Err err =>
            if negb (IsNotFound err) then (Err err, c)
            else op None writeSource c
        | Ok existing =>
            if negb (ownedBy gateway (OwnerReferences (metaOf existing)))
            then (Err errResourceNotOwned, c)
            else op (Some existing) writeSource c
        end
    end.

(** *** Class configuration *)

Definition getGatewayClassForGateway (gateway : MeshGateway)
  : M (option GatewayClass) :=
  λ c,
    match GetGatewayClass (GatewayClassName gateway) c with
    | Err err =>
        match IgnoreNotFound err with
        | None => (Ok None, c)
        | Some err => (Err err, c)
        end
    | Ok gatewayClass => (Ok (Some gatewayClass), c)
    end.

Definition getGatewayClassConfigForGatewayClass (gatewayClass : option GatewayClass)
  : M (option GatewayClassConfig) :=
  λ c,
    match gatewayClass with
    | None => (Ok None, c)
    | Some gatewayClass =>
        match ParametersRef gatewayClass with
        | Some ref =>
            if negb (bool_decide (prGroup ref = MeshGroup))
               || negb (bool_decide (prKind ref = "GatewayClassConfig"))
            then (Ok None, c)
            else
              match GetGatewayClassConfig (prName ref) c with
              | Err err =>
                  match IgnoreNotFound err with
                  | None => (Ok None, c)
                  | Some err => (Err err, c)
                  end
              | Ok config => (Ok (Some config), c)
              end
        | None => (Ok (Some emptyGatewayClassConfig), c)
        end
    end.

Definition getGatewayClassConfigForGateway (gateway : MeshGateway)
  : M (option GatewayClassConfig) :=
  (call gatewayClass <- getGatewayClassForGateway gateway;
   call gatewayClassConfig <- getGatewayClassConfigForGatewayClass gatewayClass;
   retM gatewayClassConfig)%M.

(** *** The builder *)

(** What [gateways.NewMeshGatewayBuilder(resource, r.GatewayConfig, gcc)]
    hands back: one desired object per kind (building the Deployment may
    fail) and the Deployment merge.  The builder lives in another package
    and is a parameter of the development; its Deployment merge is given
    a desired Deployment that is not nil and returns one that is not nil
    (the stored one may be nil). *)
Record MeshGatewayBuilder := {
  bServiceAccount : ServiceAccountT;
  bRole : RoleT;
  bRoleBinding : RoleBindingT;
  bService : ServiceT;
  bDeployment : result DeploymentT;
  MergeDeployments :
    option GatewayClassConfig → option DeploymentT → DeploymentT → DeploymentT
}.

(** *** The operations handed to [opIfNewOrOwned] *)

Definition upsertOp : ownedObjectOp :=
  λ _ object,
    (call _ <- CreateOrUpdate object nopMutate;
     retM tt)%M.

(** The type assertion [x, ok := v.(T)] for [T] a pointer to
    [corev1.Service]: a failed assertion yields nil and false, and so does
    a nil interface value. *)
Definition asService (v : option Object) : option ServiceT * bool :=
  match v with
  | Some (ObjService s) => (Some s, true)
  | _ => (None, false)
  end.

Definition asDeployment (v : option Object) : option DeploymentT * bool :=
  match v with
  | Some (ObjDeployment d) => (Some d, true)
  | _ => (None, false)
  end.

Definition mergeServiceOp : ownedObjectOp :=
  λ existingObject object,
    let '(existingService, ok) := asService existingObject in
    if negb ok && bool_decide (existingService ≠ None) then
      failM (ErrorNew "unable to infer existing service type")
    else
      let '(builtService, ok) := asService (Some object) in
      if negb ok then failM (ErrorNew "unable to infer built service type")
      else
        (call mergedService <- liftR (mergeService existingService builtService);
         match mergedService with
         | None => failM (Panic "nil pointer dereference")
         | Some mergedService =>
             call _ <- CreateOrUpdate (ObjService mergedService) nopMutate;
             retM tt
         end)%M.

Definition mergeDeploymentOp
    (builder : MeshGatewayBuilder) (gcc : option GatewayClassConfig)
  : ownedObjectOp :=
  λ existingObject object,
    let '(existingDeployment, ok) := asDeployment existingObject in
    if negb ok && bool_decide (existingDeployment ≠ None) then
      failM (ErrorNew "unable to infer existing deployment type")
    else
      let '(builtDeployment, ok) := asDeployment (Some object) in
      if negb ok then failM (ErrorNew "unable to infer built deployment type")
      else
        match builtDeployment with
        | None => failM (Panic "nil pointer dereference")
        | Some builtDeployment =>
            let mergedDeployment :=
              MergeDeployments builder gcc existingDeployment builtDeployment in
            (call _ <- CreateOrUpdate (ObjDeployment mergedDeployment) nopMutate;
             retM tt)%M
        end.

Section Controller.

(** [gateways.GatewayConfig] and the builder's constructor. *)
Context {GatewayConfig : Type}.
Variable NewMeshGatewayBuilder :
  MeshGateway → GatewayConfig → option GatewayClassConfig → MeshGatewayBuilder.

(** *** [onCreateUpdate] *)

(** [r] is the controller; its [GatewayConfig] field is what this
    function reads of it, the client being threaded as the state. *)
Definition onCreateUpdate (r : GatewayConfig) (resource : MeshGateway) : M unit :=
  (call gcc <- getGatewayClassConfigForGateway resource;
   let builder := NewMeshGatewayBuilder resource r gcc in
   exec wrapErr "unable to create service account"
     (opIfNewOrOwned resource ServiceAccount
        (ObjServiceAccount (bServiceAccount builder)) upsertOp);
   exec wrapErr "unable to create role"
     (opIfNewOrOwned resource Role (ObjRole (bRole builder)) upsertOp);
   exec wrapErr "unable to create role binding"
     (opIfNewOrOwned resource RoleBinding
        (ObjRoleBinding (bRoleBinding builder)) upsertOp);
   exec wrapErr "unable to create service"
     (opIfNewOrOwned resource Service (ObjService (bService builder))
        mergeServiceOp);
   call builtDeployment <-
     wrapErr "unable to build deployment" (liftR (bDeployment builder));
   exec wrapErr "unable to create deployment"
     (opIfNewOrOwned resource Deployment (ObjDeployment builtDeployment)
        (mergeDeploymentOp builder gcc));
   retM tt)%M.

End Controller.

(** *** The pipeline, kind by kind

    [onCreateUpdate] written as the specification describes it: one
    guarded upsert per kind, run in a fixed order, stopping at the first
    failure.  [onCreateUpdate_pipeline] below shows that this is what the
    function above does. *)

Definition childOrder : list Kind :=
  [ServiceAccount; Role; RoleBinding; Service; Deployment].

(** The desired object of a kind; only the Deployment can fail to build. *)
Definition desiredOf (builder : MeshGatewayBuilder) (k : Kind) : result Object :=
  match k with
  | ServiceAccount => Ok (ObjServiceAccount (bServiceAccount builder))
  | Role => Ok (ObjRole (bRole builder))
  | RoleBinding => Ok (ObjRoleBinding (bRoleBinding builder))
  | Service => Ok (ObjService (bService builder))
  | Deployment =>
      match bDeployment builder with
      | Ok d => Ok (ObjDeployment d)
      | Err e => Err e
      end
  end.

(** The merge strategy of a kind. *)
Definition opOf (builder : MeshGatewayBuilder) (gcc : option GatewayClassConfig)
    (k : Kind) : ownedObjectOp :=
  match k with
  | ServiceAccount | Role | RoleBinding => upsertOp
  | Service => mergeServiceOp
  | Deployment => mergeDeploymentOp builder gcc
  end.

Definition stepMessage (k : Kind) : string :=
  match k with
  | ServiceAccount => "unable to create service account"
  | Role => "unable to create role"
  | RoleBinding => "unable to create role binding"
  | Service => "unable to create service"
  | Deployment => "unable to create deployment"
  end.

(** The guarded upsert of one kind, as [onCreateUpdate] issues it. *)
Definition upsert (resource : MeshGateway) (builder : MeshGatewayBuilder)
    (gcc : option GatewayClassConfig) (k : Kind) (desired : Object) : M unit :=
  opIfNewOrOwned resource k desired (opOf builder gcc k).

Definition step (resource : MeshGateway) (builder : MeshGatewayBuilder)
    (gcc : option GatewayClassConfig) (k : Kind) : M unit :=
  (call desired <- wrapErr "unable to build deployment" (liftR (desiredOf builder k));
   wrapErr (stepMessage k) (upsert resource builder gcc k desired))%M.

Fixpoint runSteps (steps : list (M unit)) : M unit :=
  match steps with
  | [] => retM tt
  | s :: rest => (exec s; runSteps rest)%M
  end.

(** *** [onDelete] and [Reconcile] *)

(** [ctrl.Result] *)
Record CtrlResult := { Requeue : bool; RequeueAfter : Z }.

(** [ctrl.Result{}] *)
Definition emptyResult : CtrlResult := {| Requeue := false; RequeueAfter := 0 |}.

#[global] Instance CtrlResult_eq_dec : EqDecision CtrlResult.
Proof. solve_decision. Defined.

(** A MeshGateway as the server holds it: the object, and its deletion
    timestamp ([None] is the nil pointer, [Some t] an instant counted
    from the zero time). *)
Record StoredMeshGateway := {
  storedGateway : MeshGateway;
  DeletionTimestamp : option Z
}.

(** [(t *metav1.Time).IsZero]: nil, or the zero instant. *)
Definition IsZero (t : option Z) : bool :=
  match t with
  | None => true
  | Some t => bool_decide (t = 0%Z)
  end.

(** The cluster with its MeshGateways: what [Reconcile] reads in
    addition to what [onCreateUpdate] reads and writes. *)
Record Cluster := {
  client : Client;
  meshGateways : gmap (string * string) StoredMeshGateway;
  meshGatewayGetErrors : gmap (string * string) string
}.

Definition setClient (cl : Cluster) (c : Client) : Cluster :=
  {| client := c;
     meshGateways := meshGateways cl;
     meshGatewayGetErrors := meshGatewayGetErrors cl |}.

(** [r.Get(ctx, req.NamespacedName, resource)] *)
Definition GetMeshGateway (key : ObjectKey) (cl : Cluster)
  : result StoredMeshGateway :=
  match meshGatewayGetErrors cl !! key with
  | Some reason => Err (StatusError reason)
  | None =>
      match meshGateways cl !! key with
      | Some g => Ok g
      | None => Err StatusNotFound
      end
  end.

Definition onDelete (resource : MeshGateway) : M unit := retM tt.

Section ReconcileEntry.

Context {GatewayConfig : Type}.
Variable NewMeshGatewayBuilder :
  MeshGateway → GatewayConfig → option GatewayClassConfig → MeshGatewayBuilder.

(** [r.Controller.ReconcileResource], of the ConsulResourceController:
    another file of the package, a parameter here.  It may read and write
    anything and returns a result together with an error or nil. *)
Variable ReconcileResource :
  ObjectKey → Cluster → (CtrlResult * option error) * Cluster.

Definition Reconcile (r : GatewayConfig) (req : ObjectKey)
  : Cluster → (CtrlResult * option error) * Cluster :=
  λ cl,
    match GetMeshGateway req cl with
    | Err err =>
        if IsNotFound err then ((emptyResult, IgnoreNotFound err), cl)
        else ((emptyResult, Some err), cl)
    | Ok resource =>
        let hook :=
          if negb (IsZero (DeletionTimestamp resource))
          then onDelete (storedGateway resource)
          else onCreateUpdate NewMeshGatewayBuilder r (storedGateway resource) in
        match hook (client cl) with
        | (Err err, c') => ((emptyResult, Some err), setClient cl c')
        | (Ok _, c') => ReconcileResource req (setClient cl c')
        end
    end.

End ReconcileEntry.


(** ** Properties used in the statements *)

(** The owner-reference list of [o] has an entry matching the parent's uid
    and name. *)
Definition hasOwner (gateway : MeshGateway) (o : Object) : Prop :=
  ∃ reference, reference ∈ OwnerReferences (metaOf o)
    ∧ orUID reference = UID (mgMeta gateway)
    ∧ orName reference = Name (mgMeta gateway).

(** What the Service comparison looks at in a port. *)
Definition portKey (p : ServicePort) : Z * string := (spPort p, spProtocol p).

(** Same annotation mapping, and the same (port-number, protocol) pairs in
    the same order. *)
Definition sameAnnotationsAndPorts (a b : ServiceT) : Prop :=
  Annotations (svcMeta a) = Annotations (svcMeta b)
  ∧ portKey <$> Ports (svcSpec a) = portKey <$> Ports (svcSpec b).

#[global] Instance sameAnnotationsAndPorts_dec a b :
  Decision (sameAnnotationsAndPorts a b).
Proof. unfold sameAnnotationsAndPorts. apply _. Defined.

(** [to] after the two assignments of [mergeService]. *)
Definition overwritten (from to : ServiceT) : ServiceT :=
  {| svcMeta := setAnnotations (svcMeta to) (Annotations (svcMeta from));
     svcSpec := setPorts (svcSpec to) (Ports (svcSpec from)) |}.

(** The specification's merge strategies, [merge(observed, desired)],
    read off the three operations: what each operation hands to
    [CreateOrUpdate].  [opOf_mergeStrategy] below relates the two. *)
Definition mergeStrategy (builder : MeshGatewayBuilder)
    (gcc : option GatewayClassConfig) (k : Kind)
    (observed : option Object) (desired : Object) : result Object :=
  match k with
  | ServiceAccount | Role | RoleBinding => Ok desired
  | Service =>
      match desired with
      | ObjService built =>
          match mergeService (asService observed).1 (Some built) with
          | Ok (Some merged) => Ok (ObjService merged)
          | Ok None => Err (Panic "nil pointer dereference")
          | Err e => Err e
          end
      | _ => Err (ErrorNew "unable to infer built service type")
      end
  | Deployment =>
      match desired with
      | ObjDeployment built =>
          Ok (ObjDeployment
                (MergeDeployments builder gcc (asDeployment observed).1 built))
      | _ => Err (ErrorNew "unable to infer built deployment type")
      end
  end.

(** The assumption made of the Deployment merge where one is needed: it
    hands back the desired Deployment's metadata (name, namespace, owner
    references), whatever it does to the rest. *)
Definition keepsMeta (builder : MeshGatewayBuilder) : Prop :=
  ∀ gcc old new, depMeta (MergeDeployments builder gcc old new) = depMeta new.

(** [c'] is [c] with some objects of kind [k] added, and nothing else
    touched: nothing is removed or replaced, and no other field of the
    cluster changes. *)
Definition sameExcept (k : Kind) (c c' : Client) : Prop :=
  c' = setObjects c (objects c')
  ∧ objects c ⊆ objects c'
  ∧ ∀ ρ : Ref, ρ.1 ≠ k → objects c' !! ρ = objects c !! ρ.

(** Every object stored in [c'] that is not stored as such in [c] has the
    gateway among its owners. *)
Definition writesOwned (gateway : MeshGateway) (c c' : Client) : Prop :=
  ∀ ρ : Ref,
    objects c' !! ρ = objects c !! ρ
    ∨ ∃ o, objects c' !! ρ = Some o ∧ hasOwner gateway o.


(** ** Concrete clusters

    A gateway [gw] in namespace [consul], a builder that names every child
    after the gateway, and a few clusters to run the controller on. *)
Module Scenario.

Definition meshGatewayGVK : GroupVersionKind :=
  {| gvkGroup := MeshGroup; gvkVersion := "v2beta1"; gvkKind := "MeshGateway" |}.

Definition gw : MeshGateway :=
  {| mgMeta := {| Name := "gw"; Namespace := "consul"; UID := "u1";
                  Labels := ∅; Annotations := ∅; OwnerReferences := [] |};
     GatewayClassName := "mesh";
     mgSpec := "" |}.

Definition childMeta : ObjectMeta :=
  {| Name := "gw"; Namespace := "consul"; UID := "";
     Labels := ∅; Annotations := ∅; OwnerReferences := [] |}.

Definition gwRef : OwnerReference := controllerRef gw meshGatewayGVK.

Definition ownedMeta : ObjectMeta := setOwnerReferences childMeta [gwRef].

Definition wanPort : ServicePort :=
  {| spName := "wan"; spProtocol := "TCP"; spPort := 8080;
     spTargetPort := 8443; spNodePort := 0 |}.

Definition desiredService : ServiceT :=
  {| svcMeta := childMeta;
     svcSpec := {| Ports := [wanPort]; Selector := {[ "app" := "gw" ]};
                   Type_ := "ClusterIP" |} |}.

Definition stampedService : ServiceT :=
  {| svcMeta := ownedMeta; svcSpec := svcSpec desiredService |}.

(** Stored by the platform: same annotations, same port number and
    protocol, but a node port assigned and the type changed. *)
Definition normalizedService : ServiceT :=
  {| svcMeta := ownedMeta;
     svcSpec := {| Ports := [ {| spName := "wan"; spProtocol := "TCP";
                                  spPort := 8080; spTargetPort := 8443;
                                  spNodePort := 30001 |} ];
                   Selector := {[ "app" := "gw" ]};
                   Type_ := "NodePort" |} |}.

(** Stored after an external actor added an annotation and another
    port. *)
Definition driftedService : ServiceT :=
  {| svcMeta := setAnnotations ownedMeta {[ "foo" := "bar" ]};
     svcSpec := {| Ports := [ {| spName := "lan"; spProtocol := "UDP";
                                  spPort := 53; spTargetPort := 53;
                                  spNodePort := 0 |}; wanPort ];
                   Selector := {[ "app" := "gw" ]};
                   Type_ := "ClusterIP" |} |}.

(** Created by hand: nobody owns it. *)
Definition manualService : ServiceT :=
  {| svcMeta := childMeta;
     svcSpec := {| Ports := []; Selector := ∅; Type_ := "ExternalName" |} |}.

Definition desiredDeployment : DeploymentT :=
  {| depMeta := childMeta; depReplicas := Some 1%Z; depTemplate := "dataplane" |}.

(** A stand-in for the builder: fixed children, and a Deployment merge
    that hands back [new] with the stored replica count. *)
Definition builder (deployment : result DeploymentT) : MeshGatewayBuilder :=
  {| bServiceAccount := {| saMeta := childMeta |};
     bRole := {| roleMeta := childMeta; roleRules := ["get"] |};
     bRoleBinding := {| rbMeta := childMeta; rbSubjects := ["gw"];
                        rbRoleRef := "gw" |};
     bService := desiredService;
     bDeployment := deployment;
     MergeDeployments := λ _ old new,
       match old with
       | None => new
       | Some old =>
           {| depMeta := depMeta new; depReplicas := depReplicas old;
              depTemplate := depTemplate new |}
       end |}.

Definition NewMeshGatewayBuilder
    (_ : MeshGateway) (_ : unit) (_ : option GatewayClassConfig)
  : MeshGatewayBuilder :=
  builder (Ok desiredDeployment).

(** The same builder with a Deployment that cannot be built. *)
Definition NewFailingBuilder
    (_ : MeshGateway) (_ : unit) (_ : option GatewayClassConfig)
  : MeshGatewayBuilder :=
  builder (Err (ErrorNew "invalid class configuration")).

Definition emptyCluster : Client :=
  {| objects := ∅; gatewayClasses := ∅; gatewayClassConfigs := ∅;
     getErrors := ∅; writeErrors := ∅;
     classGetErrors := ∅; configGetErrors := ∅;
     scheme := {| meshGatewayKinds := [meshGatewayGVK] |} |}.

Definition serviceRef : Ref := (Service, ("consul", "gw")).

(** Scenario B: a Service sits at the target key, put there by hand. *)
Definition manualCluster : Client :=
  setObjects emptyCluster {[ serviceRef := ObjService manualService ]}.

(** Scenario C: the gateway's own Service has drifted. *)
Definition driftedCluster : Client :=
  setObjects emptyCluster {[ serviceRef := ObjService driftedService ]}.

Definition rbacKinds : list Kind := [ServiceAccount; Role; RoleBinding].

(** Scenario B after its first three steps: the three RBAC objects are
    stored next to the manual Service. *)
Definition manualClusterWithRBAC : Client :=
  (runSteps (step gw (NewMeshGatewayBuilder gw tt None) None <$> rbacKinds)
     manualCluster).2.

Definition withClasses (c : Client)
    (classes : gmap string GatewayClass)
    (classErrors configErrors : gmap string string) : Client :=
  {| objects := objects c;
     gatewayClasses := classes;
     gatewayClassConfigs := gatewayClassConfigs c;
     getErrors := getErrors c;
     writeErrors := writeErrors c;
     classGetErrors := classErrors;
     configGetErrors := configErrors;
     scheme := scheme c |}.

Definition classWith (ref : option ParametersReference) : GatewayClass :=
  {| gcMeta := {| Name := "mesh"; Namespace := ""; UID := "c1"; Labels := ∅;
                  Annotations := ∅; OwnerReferences := [] |};
     gcControllerName := "consul";
     ParametersRef := ref |}.

Definition configMapRef : ParametersReference :=
  {| prGroup := ""; prKind := "ConfigMap"; prName := "cfg" |}.

Definition configRef : ParametersReference :=
  {| prGroup := MeshGroup; prKind := "GatewayClassConfig"; prName := "cfg" |}.

(** The class points at something that is not a GatewayClassConfig. *)
Definition wrongKindCluster : Client :=
  withClasses emptyCluster {[ "mesh" := classWith (Some configMapRef) ]} ∅ ∅.

(** The class points at a GatewayClassConfig that is not there. *)
Definition danglingCluster : Client :=
  withClasses emptyCluster {[ "mesh" := classWith (Some configRef) ]} ∅ ∅.

(** The class has no parameters reference. *)
Definition bareClassCluster : Client :=
  withClasses emptyCluster {[ "mesh" := classWith None ]} ∅ ∅.

(** The server times out on the class lookup. *)
Definition classTimeoutCluster : Client :=
  withClasses emptyCluster ∅ {[ "mesh" := "timeout" ]} ∅.

(** The server times out on the configuration lookup. *)
Definition configTimeoutCluster : Client :=
  withClasses emptyCluster {[ "mesh" := classWith (Some configRef) ]}
    ∅ {[ "cfg" := "timeout" ]}.

(** The empty cluster after the four steps that precede the Deployment. *)
Definition committedCluster : Client :=
  (runSteps (step gw (NewFailingBuilder gw tt None) None
               <$> [ServiceAccount; Role; RoleBinding; Service])
     emptyCluster).2.

(** A desired object placed in another namespace than the gateway's:
    stamping it is refused. *)
Definition strayService : ServiceT :=
  {| svcMeta := {| Name := "gw"; Namespace := "elsewhere"; UID := "";
                   Labels := ∅; Annotations := ∅; OwnerReferences := [] |};
     svcSpec := svcSpec desiredService |}.

(** Scenario C after one reconcile. *)
Definition driftedAfterFirstRun : Client :=
  (onCreateUpdate NewMeshGatewayBuilder tt gw driftedCluster).2.

(** The empty cluster after one reconcile. *)
Definition createdCluster : Client :=
  (onCreateUpdate NewMeshGatewayBuilder tt gw emptyCluster).2.

(** The server times out on the lookup of the Service. *)
Definition serviceTimeoutCluster : Client :=
  {| objects := objects manualCluster;
     gatewayClasses := ∅; gatewayClassConfigs := ∅;
     getErrors := {[ serviceRef := "timeout" ]}; writeErrors := ∅;
     classGetErrors := ∅; configGetErrors := ∅;
     scheme := scheme emptyCluster |}.

Definition storedConfig : GatewayClassConfig :=
  {| gccMeta := {| Name := "cfg"; Namespace := ""; UID := "g1"; Labels := ∅;
                   Annotations := ∅; OwnerReferences := [] |};
     gccSpec := "replicas: 3" |}.

(** The class points at a GatewayClassConfig that is stored. *)
Definition configuredCluster : Client :=
  {| objects := ∅;
     gatewayClasses := {[ "mesh" := classWith (Some configRef) ]};
     gatewayClassConfigs := {[ "cfg" := storedConfig ]};
     getErrors := ∅; writeErrors := ∅;
     classGetErrors := ∅; configGetErrors := ∅;
     scheme := scheme emptyCluster |}.

(** A [ReconcileResource] that asks to be called again and touches
    nothing. *)
Definition requeueResource (_ : ObjectKey) (cl : Cluster)
  : (CtrlResult * option error) * Cluster :=
  (({| Requeue := true; RequeueAfter := 0 |}, None), cl).

Definition gwKey : ObjectKey := ("consul", "gw").

(** [gw] is stored and alive; no child exists yet. *)
Definition liveCluster : Cluster :=
  {| client := emptyCluster;
     meshGateways := {[ gwKey := {| storedGateway := gw;
                                    DeletionTimestamp := None |} ]};
     meshGatewayGetErrors := ∅ |}.

(** [gw] is stored and marked for deletion; a Service that it does not
    own sits at the key of its Service. *)
Definition deletingCluster : Cluster :=
  {| client := manualCluster;
     meshGateways := {[ gwKey := {| storedGateway := gw;
                                    DeletionTimestamp := Some 1700000000%Z |} ]};
     meshGatewayGetErrors := ∅ |}.

(** [gw] is stored and alive, next to the Service it does not own. *)
Definition blockedCluster : Cluster :=
  {| client := manualCluster;
     meshGateways := {[ gwKey := {| storedGateway := gw;
                                    DeletionTimestamp := None |} ]};
     meshGatewayGetErrors := ∅ |}.

End Scenario.

(** * Proofs *)

(** ** The Service comparison and merge *)

Lemma portsEqualFrom_drop (aPorts bPorts : list ServicePort) (i : nat) :
  i + length aPorts = length bPorts →
  portsEqualFrom i aPorts bPorts
  = Ok (bool_decide (portKey <$> aPorts = portKey <$> drop i bPorts)).
Proof.
  revert i. induction aPorts as [|port rest IH]; intros i Hlen; simpl in *.
  - rewrite drop_ge by lia. by rewrite bool_decide_eq_true_2.
  - destruct (lookup_lt_is_Some_2 bPorts i) as [otherPort Hother]; [lia|].
    rewrite Hother, (drop_S _ _ _ Hother), fmap_cons.
    destruct (decide (spPort port = spPort otherPort)) as [Hp|Hp];
      [destruct (decide (spProtocol port = spProtocol otherPort)) as [Hq|Hq]|].
    + rewrite !bool_decide_eq_true_2 by done. simpl.
      rewrite IH by lia. f_equal. apply bool_decide_ext.
      assert (portKey port = portKey otherPort) as ->
        by (unfold portKey; congruence).
      split; [intros Heq; f_equal; exact Heq|].
      intros Heq. by simplify_list_eq.
    + rewrite (bool_decide_eq_false_2 (spProtocol port = _)) by done.
      rewrite orb_true_r. f_equal. symmetry. apply bool_decide_eq_false_2.
      unfold portKey. intros Heq. by simplify_list_eq.
    + rewrite (bool_decide_eq_false_2 (spPort port = _)) by done. simpl.
      f_equal. symmetry. apply bool_decide_eq_false_2.
      unfold portKey. intros Heq. by simplify_list_eq.
Qed.

(** [areServicesEqual] decides [sameAnnotationsAndPorts] on two services
    that are both present, and never panics. *)
Lemma areServicesEqual_Some (a b : ServiceT) :
  areServicesEqual (Some a) (Some b)
  = Ok (bool_decide (sameAnnotationsAndPorts a b)).
Proof.
  unfold areServicesEqual, sameAnnotationsAndPorts.
  destruct (decide (Annotations (svcMeta a) = Annotations (svcMeta b))) as [Ha|Ha].
  - rewrite (bool_decide_eq_true_2 _ Ha). simpl.
    destruct (Nat.eqb_spec (length (Ports (svcSpec b))) (length (Ports (svcSpec a))))
      as [Hlen|Hlen]; simpl.
    + rewrite portsEqualFrom_drop by (simpl; lia). rewrite drop_0.
      f_equal. apply bool_decide_ext. tauto.
    + f_equal. symmetry. apply bool_decide_eq_false_2. intros [_ Hp].
      apply (f_equal length) in Hp. rewrite !length_fmap in Hp. lia.
  - rewrite (bool_decide_eq_false_2 _ Ha). simpl.
    f_equal. symmetry. apply bool_decide_eq_false_2. tauto.
Qed.

Lemma areServicesEqual_nil (a b : option ServiceT) :
  a = None ∨ b = None → areServicesEqual a b = Ok true.
Proof. intros [-> | ->]; [done|]. by destruct a. Qed.

Lemma sameAnnotationsAndPorts_refl (a : ServiceT) : sameAnnotationsAndPorts a a.
Proof. done. Qed.

Lemma mergeService_Some (from to : ServiceT) :
  mergeService (Some from) (Some to)
  = Ok (Some (if decide (sameAnnotationsAndPorts from to) then to
              else overwritten from to)).
Proof.
  unfold mergeService. rewrite areServicesEqual_Some. simpl.
  destruct (decide (sameAnnotationsAndPorts from to)) as [H|H].
  - by rewrite (bool_decide_eq_true_2 _ H).
  - by rewrite (bool_decide_eq_false_2 _ H).
Qed.

Lemma mergeService_nil (from to : option ServiceT) :
  from = None ∨ to = None → mergeService from to = Ok to.
Proof.
  intros H. unfold mergeService. by rewrite (areServicesEqual_nil _ _ H).
Qed.

Lemma overwritten_same (from to : ServiceT) :
  sameAnnotationsAndPorts from (overwritten from to).
Proof. done. Qed.

(** C3.  Service merge, equality law: when the observed Service is absent,
    or has the same annotation mapping as the desired one and the same
    (port-number, protocol) pairs in the same order, the merge returns the
    desired Service unchanged. *)
Theorem mergeService_equal_returns_desired
    (observed : option ServiceT) (desired : ServiceT) :
  (observed = None
   ∨ ∃ o, observed = Some o ∧ sameAnnotationsAndPorts o desired) →
  mergeService observed (Some desired) = Ok (Some desired).
Proof.
  intros [-> | (o & -> & Hsame)].
  - apply mergeService_nil. by left.
  - rewrite mergeService_Some. by rewrite decide_True.
Qed.

Lemma mergeService_equal_returns_desired_witness :
  Scenario.normalizedService ≠ Scenario.stampedService
  ∧ mergeService (Some Scenario.normalizedService) (Some Scenario.stampedService)
    = Ok (Some Scenario.stampedService).
Proof.
  split; [discriminate|].
  apply mergeService_equal_returns_desired.
  right. exists Scenario.normalizedService. split; [reflexivity|].
  split; reflexivity.
Defined.

(** C4.  Service merge, preservation law: when the observed Service
    differs from the desired one in its annotations or in its
    (port-number, protocol) list, the merge result carries exactly the
    observed annotation mapping and exactly the observed port list, and
    every other field is the desired Service's. *)
Theorem mergeService_differ_keeps_observed (observed desired : ServiceT) :
  ¬ sameAnnotationsAndPorts observed desired →
  ∃ merged,
    mergeService (Some observed) (Some desired) = Ok (Some merged)
    ∧ Annotations (svcMeta merged) = Annotations (svcMeta observed)
    ∧ Ports (svcSpec merged) = Ports (svcSpec observed)
    ∧ Name (svcMeta merged) = Name (svcMeta desired)
    ∧ Namespace (svcMeta merged) = Namespace (svcMeta desired)
    ∧ UID (svcMeta merged) = UID (svcMeta desired)
    ∧ Labels (svcMeta merged) = Labels (svcMeta desired)
    ∧ OwnerReferences (svcMeta merged) = OwnerReferences (svcMeta desired)
    ∧ Selector (svcSpec merged) = Selector (svcSpec desired)
    ∧ Type_ (svcSpec merged) = Type_ (svcSpec desired).
Proof.
  intros Hdiff. exists (overwritten observed desired).
  rewrite mergeService_Some, decide_False by done.
  by repeat split.
Qed.

Lemma mergeService_differ_keeps_observed_witness :
  ∃ merged,
    mergeService (Some Scenario.driftedService) (Some Scenario.stampedService)
    = Ok (Some merged)
    ∧ Annotations (svcMeta merged) = {[ "foo" := "bar" ]}
    ∧ Ports (svcSpec merged) = Ports (svcSpec Scenario.driftedService).
Proof.
  destruct (mergeService_differ_keeps_observed
              Scenario.driftedService Scenario.stampedService)
    as (merged & Hm & Ha & Hp & _).
  - intros [Ha _]. vm_compute in Ha. discriminate.
  - exists merged. by repeat split.
Defined.

(** C9.  The Service merge is idempotent in its second argument, for
    services that are present or nil alike: merging [from] into the result
    of merging [from] into [to] changes nothing, because the result of one
    merge already agrees with [from] on annotations and ports. *)
Theorem mergeService_idempotent (from to : option ServiceT) :
  bindR (mergeService from to) (mergeService from) = mergeService from to
  ∧ ∀ f t, ∃ merged,
      mergeService (Some f) (Some t) = Ok (Some merged)
      ∧ sameAnnotationsAndPorts f merged.
Proof.
  split.
  - destruct from as [f|], to as [t|];
      try (rewrite !mergeService_nil by tauto; simpl;
           by rewrite mergeService_nil by tauto).
    rewrite mergeService_Some. simpl.
    rewrite mergeService_Some. do 2 f_equal.
    destruct (decide (sameAnnotationsAndPorts f t)) as [H|H].
    + by rewrite decide_True.
    + by rewrite decide_True by apply overwritten_same.
  - intros f t. rewrite mergeService_Some. eexists. split; [reflexivity|].
    destruct (decide (sameAnnotationsAndPorts f t)); [done|].
    apply overwritten_same.
Qed.

(** C10.  [areServicesEqual] and [mergeService] return on every pair of
    possibly-nil services without dereferencing nil or indexing out of
    range; with a nil argument on either side the comparison answers true,
    and the merge returns [to] as it was given. *)
Theorem services_nil_safe (from to : option ServiceT) :
  (∃ equal, areServicesEqual from to = Ok equal)
  ∧ (∃ merged, mergeService from to = Ok merged)
  ∧ (from = None ∨ to = None →
     areServicesEqual from to = Ok true ∧ mergeService from to = Ok to).
Proof.
  split; [|split].
  - destruct from as [f|], to as [t|]; try (by eexists).
    rewrite areServicesEqual_Some. by eexists.
  - destruct from as [f|], to as [t|];
      try (rewrite mergeService_nil by tauto; by eexists).
    rewrite mergeService_Some. by eexists.
  - intros H. split; [by apply areServicesEqual_nil | by apply mergeService_nil].
Qed.

Lemma services_nil_safe_witness :
  areServicesEqual None (Some Scenario.desiredService) = Ok true
  ∧ mergeService None (Some Scenario.desiredService)
    = Ok (Some Scenario.desiredService).
Proof.
  apply (services_nil_safe None (Some Scenario.desiredService)). by left.
Defined.

(** ** Stamping the owner reference *)

Lemma ownedBy_hasOwner (gateway : MeshGateway) (o : Object) :
  ownedBy gateway (OwnerReferences (metaOf o)) = true ↔ hasOwner gateway o.
Proof.
  unfold hasOwner. induction (OwnerReferences (metaOf o)) as [|r rest IH]; simpl.
  - split; [done|]. intros (r & Hr & _). by apply elem_of_nil in Hr.
  - destruct (decide (orUID r = UID (mgMeta gateway)
                      ∧ orName r = Name (mgMeta gateway))) as [[Hu Hn]|Hne].
    + rewrite !bool_decide_eq_true_2 by done. simpl. split; [|done].
      intros _. exists r. split; [left|done].
    + assert (bool_decide (orUID r = UID (mgMeta gateway))
              && bool_decide (orName r = Name (mgMeta gateway)) = false) as ->.
      { apply andb_false_iff.
        destruct (decide (orUID r = UID (mgMeta gateway)));
          [right|left]; apply bool_decide_eq_false_2; tauto. }
      rewrite IH. split.
      * intros (r' & Hr' & H). exists r'. split; [by right|done].
      * intros (r' & Hr' & H). apply elem_of_cons in Hr' as [-> | Hr'];
          [tauto|]. by exists r'.
Qed.

Lemma upsertOwnerRef_elem (ref : OwnerReference) (owners : list OwnerReference) :
  ref ∈ upsertOwnerRef ref owners.
Proof.
  induction owners as [|r rest IH]; simpl; [left|].
  destruct (referSameObject r ref); [left | by right].
Qed.

Lemma metaOf_withMeta (o : Object) (m : ObjectMeta) : metaOf (withMeta o m) = m.
Proof. by destruct o. Qed.

Lemma kindOf_withMeta (o : Object) (m : ObjectMeta) :
  kindOf (withMeta o m) = kindOf o.
Proof. by destruct o. Qed.

(** A successful stamp changes the owner references and nothing else, and
    the new list names the gateway. *)
Lemma SetControllerReference_Ok gateway (controlled stamped : Object) s :
  SetControllerReference gateway controlled s = Ok stamped →
  ∃ owners,
    stamped = withMeta controlled (setOwnerReferences (metaOf controlled) owners)
    ∧ hasOwner gateway stamped.
Proof.
  unfold SetControllerReference. intros H.
  destruct (validateOwner _ _); [|done]. simpl in H.
  destruct (GVKForObject s) as [gvk|]; [|done]. simpl in H.
  set (ref := controllerRef gateway gvk) in *.
  exists (upsertOwnerRef ref (OwnerReferences (metaOf controlled))).
  assert (stamped = withMeta controlled
            (setOwnerReferences (metaOf controlled)
               (upsertOwnerRef ref (OwnerReferences (metaOf controlled))))) as ->.
  { destruct (GetControllerOf _); [destruct (negb _); [done|]|]; congruence. }
  split; [done|]. exists ref. rewrite metaOf_withMeta. simpl.
  split; [apply upsertOwnerRef_elem | done].
Qed.

Lemma SetControllerReference_key gateway (controlled stamped : Object) s :
  SetControllerReference gateway controlled s = Ok stamped →
  kindOf stamped = kindOf controlled
  ∧ ObjectKeyFromObject stamped = ObjectKeyFromObject controlled.
Proof.
  intros (owners & -> & _)%SetControllerReference_Ok.
  unfold ObjectKeyFromObject. by rewrite kindOf_withMeta, metaOf_withMeta.
Qed.

(** ** [opIfNewOrOwned] *)

(** The function by the outcome of its lookup. *)
Lemma opIfNewOrOwned_stamped gateway scanTarget writeSource op c stamped :
  SetControllerReference gateway writeSource (scheme c) = Ok stamped →
  opIfNewOrOwned gateway scanTarget writeSource op c
  = match Get scanTarget (ObjectKeyFromObject writeSource) c with
    | Err err => if IsNotFound err then op None stamped c else (Err err, c)
    | Ok existing =>
        if ownedBy gateway (OwnerReferences (metaOf existing))
        then op (Some existing) stamped c
        else (Err errResourceNotOwned, c)
    end.
Proof.
  intros Hs. unfold opIfNewOrOwned. rewrite Hs.
  apply SetControllerReference_key in Hs as [_ Hkey].
  unfold ObjectKeyFromObject in Hkey. rewrite Hkey.
  destruct (Get _ _ _) as [existing|err].
  - by destruct (ownedBy _ _).
  - by destruct (IsNotFound err).
Qed.

Lemma opIfNewOrOwned_not_stamped gateway scanTarget writeSource op c err :
  SetControllerReference gateway writeSource (scheme c) = Err err →
  opIfNewOrOwned gateway scanTarget writeSource op c = (Err err, c).
Proof. intros Hs. unfold opIfNewOrOwned. by rewrite Hs. Qed.

(** C1.  Ownership guard.  For every kind looked for, once the desired
    object is stamped: a stored object found at the target key whose owner
    references hold no entry matching the gateway's uid and name makes the
    upsert return [errResourceNotOwned] with the cluster exactly as it was;
    when the lookup reports that nothing is stored there the operation runs
    on the create path (no existing object), and when the object found is
    owned it runs on the update path (with that object). *)
Theorem opIfNewOrOwned_ownership_guard
    gateway (scanTarget : Kind) (writeSource stamped : Object)
    (op : ownedObjectOp) (c : Client) :
  SetControllerReference gateway writeSource (scheme c) = Ok stamped →
  (∀ existing,
     Get scanTarget (ObjectKeyFromObject writeSource) c = Ok existing →
     ¬ hasOwner gateway existing →
     opIfNewOrOwned gateway scanTarget writeSource op c
     = (Err errResourceNotOwned, c))
  ∧ (∀ err,
       Get scanTarget (ObjectKeyFromObject writeSource) c = Err err →
       IsNotFound err = true →
       opIfNewOrOwned gateway scanTarget writeSource op c = op None stamped c)
  ∧ (∀ existing,
       Get scanTarget (ObjectKeyFromObject writeSource) c = Ok existing →
       hasOwner gateway existing →
       opIfNewOrOwned gateway scanTarget writeSource op c
       = op (Some existing) stamped c).
Proof.
  intros Hs. rewrite (opIfNewOrOwned_stamped _ _ _ _ _ _ Hs).
  split; [|split].
  - intros existing -> Hno. rewrite <- ownedBy_hasOwner in Hno.
    by destruct (ownedBy _ _).
  - by intros err -> ->.
  - intros existing -> Hown. rewrite <- ownedBy_hasOwner in Hown.
    by rewrite Hown.
Qed.

Lemma opIfNewOrOwned_ownership_guard_witness :
  opIfNewOrOwned Scenario.gw Service (ObjService Scenario.desiredService)
    mergeServiceOp Scenario.manualCluster
  = (Err errResourceNotOwned, Scenario.manualCluster)
  ∧ opIfNewOrOwned Scenario.gw Service (ObjService Scenario.desiredService)
      mergeServiceOp Scenario.emptyCluster
    = mergeServiceOp None (ObjService Scenario.stampedService)
        Scenario.emptyCluster
  ∧ opIfNewOrOwned Scenario.gw Service (ObjService Scenario.desiredService)
      mergeServiceOp Scenario.driftedCluster
    = mergeServiceOp (Some (ObjService Scenario.driftedService))
        (ObjService Scenario.stampedService) Scenario.driftedCluster.
Proof.
  split; [|split].
  - apply (opIfNewOrOwned_ownership_guard Scenario.gw Service
             (ObjService Scenario.desiredService)
             (ObjService Scenario.stampedService)
             mergeServiceOp Scenario.manualCluster eq_refl)
      with (existing := ObjService Scenario.manualService).
    + reflexivity.
    + rewrite <- ownedBy_hasOwner. vm_compute. discriminate.
  - apply (opIfNewOrOwned_ownership_guard Scenario.gw Service
             (ObjService Scenario.desiredService)
             (ObjService Scenario.stampedService)
             mergeServiceOp Scenario.emptyCluster eq_refl)
      with (err := StatusNotFound); reflexivity.
  - apply (opIfNewOrOwned_ownership_guard Scenario.gw Service
             (ObjService Scenario.desiredService)
             (ObjService Scenario.stampedService)
             mergeServiceOp Scenario.driftedCluster eq_refl).
    + reflexivity.
    + rewrite <- ownedBy_hasOwner. reflexivity.
Defined.

(** ** Writes *)

Lemma objects_setObjects c objs : objects (setObjects c objs) = objs.
Proof. done. Qed.

Lemma setObjects_id c : setObjects c (objects c) = c.
Proof. by destruct c. Qed.

Lemma setObjects_setObjects c objs objs' :
  setObjects (setObjects c objs) objs' = setObjects c objs'.
Proof. done. Qed.

(** With a [MutateFn] that does nothing, [CreateOrUpdate] creates the
    object when the key is free and otherwise leaves the cluster alone. *)
Lemma CreateOrUpdate_nop_cases obj c r c' :
  CreateOrUpdate obj nopMutate c = (r, c') →
  (c' = c ∧ ((∃ e, r = Err e) ∨ is_Some (objects c !! refOf obj)))
  ∨ (r = Ok OperationResultCreated
     ∧ objects c !! refOf obj = None
     ∧ c' = setObjects c (<[refOf obj := obj]> (objects c))).
Proof.
  unfold CreateOrUpdate, Get, Create, mutate, nopMutate, refOf. simpl.
  destruct (getErrors c !! _); simpl.
  { intros [= <- <-]. left. eauto. }
  destruct (objects c !! _) as [existing|] eqn:Hstored; simpl.
  - intros H. left.
    destruct (decide (ObjectKeyFromObject existing = ObjectKeyFromObject obj));
      [rewrite decide_True in H by done|]; injection H as <- <-; eauto.
  - rewrite decide_True by done. rewrite Hstored.
    destruct (writeErrors c !! _).
    + intros [= <- <-]. left. eauto.
    + intros [= <- <-]. right. done.
Qed.

Lemma CreateOrUpdate_nop_present obj c :
  is_Some (objects c !! refOf obj) →
  (CreateOrUpdate obj nopMutate c).2 = c.
Proof.
  intros [existing Hstored].
  destruct (CreateOrUpdate obj nopMutate c) as [r c'] eqn:H.
  apply CreateOrUpdate_nop_cases in H as [[-> _]|(_ & Hnone & _)]; [done|].
  congruence.
Qed.

(** ** Operations and merge strategies *)

Lemma opOf_mergeStrategy builder gcc k observed desired c :
  opOf builder gcc k observed desired c
  = match mergeStrategy builder gcc k observed desired with
    | Err e => (Err e, c)
    | Ok final =>
        match CreateOrUpdate final nopMutate c with
        | (Ok _, c') => (Ok tt, c')
        | (Err e, c') => (Err e, c')
        end
    end.
Proof.
  destruct k; simpl; try done.
  - unfold mergeServiceOp.
    destruct observed as [[]|], desired; simpl; try done;
      unfold bindM, liftR;
      (destruct (mergeService _ _) as [[merged|]|]; [done..]).
  - unfold mergeDeploymentOp.
    destruct observed as [[]|], desired; simpl; done.
Qed.

Lemma mergeStrategy_kind builder gcc k observed desired final :
  mergeStrategy builder gcc k observed desired = Ok final →
  kindOf desired = k → kindOf final = k.
Proof.
  destruct k; simpl; try congruence.
  - destruct desired; try done.
    destruct (mergeService _ _) as [[merged|]|]; try done. by intros [= <-].
  - destruct desired; try done. by intros [= <-].
Qed.

Lemma mergeService_meta from t merged :
  mergeService from (Some t) = Ok (Some merged) →
  Name (svcMeta merged) = Name (svcMeta t)
  ∧ Namespace (svcMeta merged) = Namespace (svcMeta t)
  ∧ OwnerReferences (svcMeta merged) = OwnerReferences (svcMeta t).
Proof.
  destruct from as [f|].
  - rewrite mergeService_Some. intros [= <-].
    by destruct (decide (sameAnnotationsAndPorts f t)).
  - rewrite mergeService_nil by tauto. by intros [= <-].
Qed.

(** A merge strategy keeps the name, namespace and owner references of the
    desired object: by construction for four kinds, by assumption for the
    Deployment. *)
Lemma mergeStrategy_meta builder gcc k observed desired final :
  (k = Deployment → keepsMeta builder) →
  mergeStrategy builder gcc k observed desired = Ok final →
  ObjectKeyFromObject final = ObjectKeyFromObject desired
  ∧ OwnerReferences (metaOf final) = OwnerReferences (metaOf desired).
Proof.
  intros Hkeeps. unfold ObjectKeyFromObject.
  destruct k; simpl; try (by intros [= <-]).
  - destruct desired; try done.
    destruct (mergeService _ _) as [[merged|]|] eqn:Hm; try done.
    intros [= <-]. simpl.
    apply mergeService_meta in Hm as (-> & -> & ->). done.
  - destruct desired; try done. intros [= <-]. simpl.
    by rewrite (Hkeeps eq_refl).
Qed.

Lemma hasOwner_owners gateway (a b : Object) :
  OwnerReferences (metaOf a) = OwnerReferences (metaOf b) →
  hasOwner gateway b → hasOwner gateway a.
Proof. unfold hasOwner. by intros ->. Qed.

(** ** One guarded upsert *)

Lemma opOf_cases builder gcc k observed stamped c r c' :
  opOf builder gcc k observed stamped c = (r, c') →
  (∃ e, r = Err e ∧ c' = c)
  ∨ ∃ final,
      mergeStrategy builder gcc k observed stamped = Ok final
      ∧ r = Ok tt
      ∧ ((c' = c ∧ is_Some (objects c !! refOf final))
         ∨ (objects c !! refOf final = None
            ∧ c' = setObjects c (<[refOf final := final]> (objects c)))).
Proof.
  rewrite opOf_mergeStrategy.
  destruct (mergeStrategy _ _ _ _ _) as [final|e]; [|intros [= <- <-]; eauto].
  destruct (CreateOrUpdate final nopMutate c) as [r0 c0] eqn:Hw.
  apply CreateOrUpdate_nop_cases in Hw
    as [[-> [[e ->]|Hsome]]|(-> & Hnone & ->)].
  - intros [= <- <-]. eauto.
  - destruct r0; intros [= <- <-]; [right|left]; eauto 10.
  - intros [= <- <-]. right. eauto 10.
Qed.

Lemma upsert_cases resource builder gcc k desired c r c' :
  upsert resource builder gcc k desired c = (r, c') →
  (∃ e, r = Err e ∧ c' = c)
  ∨ ∃ stamped observed final,
      SetControllerReference resource desired (scheme c) = Ok stamped
      ∧ mergeStrategy builder gcc k observed stamped = Ok final
      ∧ r = Ok tt
      ∧ ((c' = c ∧ is_Some (objects c !! refOf final))
         ∨ (objects c !! refOf final = None
            ∧ c' = setObjects c (<[refOf final := final]> (objects c)))).
Proof.
  unfold upsert.
  destruct (SetControllerReference resource desired (scheme c))
    as [stamped|e] eqn:Hs.
  2:{ rewrite (opIfNewOrOwned_not_stamped _ _ _ _ _ _ Hs).
      intros [= <- <-]. eauto. }
  rewrite (opIfNewOrOwned_stamped _ _ _ _ _ _ Hs).
  destruct (Get _ _ _) as [existing|err].
  - destruct (ownedBy _ _); [|intros [= <- <-]; eauto].
    intros [?|(final & ? & ?)]%opOf_cases; [by left|right]. eauto 10.
  - destruct (IsNotFound err); [|intros [= <- <-]; eauto].
    intros [?|(final & ? & ?)]%opOf_cases; [by left|right]. eauto 10.
Qed.

Lemma upsert_fail_unchanged resource builder gcc k desired c e c' :
  upsert resource builder gcc k desired c = (Err e, c') → c' = c.
Proof.
  intros [(? & _ & ->)|(? & ? & ? & _ & _ & ? & _)]%upsert_cases; done.
Qed.

Lemma upsert_sameExcept resource builder gcc k desired c r c' :
  kindOf desired = k →
  upsert resource builder gcc k desired c = (r, c') →
  sameExcept k c c'.
Proof.
  intros Hk [(? & _ & ->)|(st & obs & final & Hs & Hm & _ & Hw)]%upsert_cases.
  { split; [by rewrite setObjects_id|done]. }
  destruct Hw as [[-> _]|[Hnone ->]].
  { split; [by rewrite setObjects_id|done]. }
  split; [done|]. split.
  - simpl. by apply insert_subseteq.
  - intros ρ Hρ. simpl. apply lookup_insert_ne. intros <-. apply Hρ. simpl.
    apply (mergeStrategy_kind _ _ _ _ _ _ Hm).
    apply SetControllerReference_key in Hs as [-> _]. done.
Qed.

Lemma upsert_final_ref resource builder gcc k desired stamped observed final s :
  (k = Deployment → keepsMeta builder) →
  kindOf desired = k →
  SetControllerReference resource desired s = Ok stamped →
  mergeStrategy builder gcc k observed stamped = Ok final →
  refOf final = (k, ObjectKeyFromObject desired) ∧ hasOwner resource final.
Proof.
  intros Hkeeps Hk Hs Hm.
  destruct (mergeStrategy_meta _ _ _ _ _ _ Hkeeps Hm) as [Hkey Howners].
  pose proof (SetControllerReference_key _ _ _ _ Hs) as [Hkind Hkey'].
  destruct (SetControllerReference_Ok _ _ _ _ Hs) as (_ & _ & Hown).
  split.
  - unfold refOf. rewrite Hkey, Hkey'. f_equal.
    apply (mergeStrategy_kind _ _ _ _ _ _ Hm). congruence.
  - by apply (hasOwner_owners _ _ _ Howners).
Qed.

Lemma upsert_ok_present resource builder gcc k desired c c' :
  (k = Deployment → keepsMeta builder) →
  kindOf desired = k →
  upsert resource builder gcc k desired c = (Ok tt, c') →
  is_Some (objects c' !! (k, ObjectKeyFromObject desired)).
Proof.
  intros Hkeeps Hk
    [(? & ? & _)|(st & obs & final & Hs & Hm & _ & Hw)]%upsert_cases; [done|].
  destruct (upsert_final_ref _ _ _ _ _ _ _ _ _ Hkeeps Hk Hs Hm) as [<- _].
  destruct Hw as [[-> ?]|[_ ->]]; [done|].
  simpl. rewrite lookup_insert_eq. by eexists.
Qed.

Lemma upsert_present_unchanged resource builder gcc k desired c :
  (k = Deployment → keepsMeta builder) →
  kindOf desired = k →
  is_Some (objects c !! (k, ObjectKeyFromObject desired)) →
  (upsert resource builder gcc k desired c).2 = c.
Proof.
  intros Hkeeps Hk [o Ho].
  destruct (upsert resource builder gcc k desired c) as [r c'] eqn:H.
  apply upsert_cases in H
    as [(? & _ & ->)|(st & obs & final & Hs & Hm & _ & Hw)]; [done|].
  destruct Hw as [[-> _]|[Hnone _]]; [done|].
  destruct (upsert_final_ref _ _ _ _ _ _ _ _ _ Hkeeps Hk Hs Hm) as [Href _].
  rewrite Href in Hnone. congruence.
Qed.

Lemma upsert_writesOwned resource builder gcc k desired c r c' :
  (k = Deployment → keepsMeta builder) →
  kindOf desired = k →
  upsert resource builder gcc k desired c = (r, c') →
  writesOwned resource c c'.
Proof.
  intros Hkeeps Hk
    [(? & _ & ->)|(st & obs & final & Hs & Hm & _ & Hw)]%upsert_cases ρ;
    [by left|].
  destruct Hw as [[-> _]|[_ ->]]; [by left|].
  destruct (upsert_final_ref _ _ _ _ _ _ _ _ _ Hkeeps Hk Hs Hm) as [_ Hown].
  simpl. destruct (decide (refOf final = ρ)) as [<-|Hne].
  - right. exists final. by rewrite lookup_insert_eq.
  - left. by apply lookup_insert_ne.
Qed.

(** ** One step of the pipeline *)

Lemma desiredOf_kind builder k desired :
  desiredOf builder k = Ok desired → kindOf desired = k.
Proof.
  destruct k; simpl; try (by intros [= <-]).
  destruct (bDeployment builder); [|done]. by intros [= <-].
Qed.

Lemma step_built resource builder gcc k desired c :
  desiredOf builder k = Ok desired →
  step resource builder gcc k c
  = match upsert resource builder gcc k desired c with
    | (Ok a, c') => (Ok a, c')
    | (Err e, c') => (Err (Errorf (stepMessage k) e), c')
    end.
Proof. intros H. unfold step, bindM, wrapErr, liftR. by rewrite H. Qed.

Lemma step_not_built resource builder gcc k e c :
  desiredOf builder k = Err e →
  step resource builder gcc k c
  = (Err (Errorf "unable to build deployment" e), c).
Proof. intros H. unfold step, bindM, wrapErr, liftR. by rewrite H. Qed.

(** A step either fails and leaves the cluster as it was, or it is the
    successful upsert of the desired object of its kind. *)
Lemma step_cases resource builder gcc k c r c' :
  step resource builder gcc k c = (r, c') →
  (∃ e, r = Err e ∧ c' = c)
  ∨ ∃ desired,
      desiredOf builder k = Ok desired
      ∧ r = Ok tt
      ∧ upsert resource builder gcc k desired c = (Ok tt, c').
Proof.
  destruct (desiredOf builder k) as [desired|e] eqn:Hd.
  - rewrite (step_built _ _ _ _ _ _ Hd).
    destruct (upsert _ _ _ _ _ _) as [[[]|e] c0] eqn:Hu; intros [= <- <-].
    + right. eauto.
    + left. apply upsert_fail_unchanged in Hu as ->. eauto.
  - rewrite (step_not_built _ _ _ _ _ _ Hd). intros [= <- <-]. eauto.
Qed.

Lemma sameExcept_refl k c : sameExcept k c c.
Proof. split; [by rewrite setObjects_id|done]. Qed.

Lemma step_sameExcept resource builder gcc k c r c' :
  step resource builder gcc k c = (r, c') → sameExcept k c c'.
Proof.
  intros [(? & _ & ->)|(desired & Hd & _ & Hu)]%step_cases.
  - apply sameExcept_refl.
  - eapply upsert_sameExcept; [|done]. by eapply desiredOf_kind.
Qed.

(** ** The steps in sequence *)

Section Steps.

Context (resource : MeshGateway) (builder : MeshGatewayBuilder)
        (gcc : option GatewayClassConfig).

Lemma runSteps_cons k ks c :
  runSteps (step resource builder gcc <$> k :: ks) c
  = match step resource builder gcc k c with
    | (Ok _, c') => runSteps (step resource builder gcc <$> ks) c'
    | (Err e, c') => (Err e, c')
    end.
Proof. done. Qed.

(** Running steps for the kinds [ks] touches objects of those kinds
    only, adds without removing, and changes no other part of the
    cluster. *)
Lemma runSteps_frame ks c r c' :
  runSteps (step resource builder gcc <$> ks) c = (r, c') →
  c' = setObjects c (objects c')
  ∧ objects c ⊆ objects c'
  ∧ ∀ ρ : Ref, ρ.1 ∉ ks → objects c' !! ρ = objects c !! ρ.
Proof.
  revert c. induction ks as [|k ks IH]; intros c.
  - intros [= <- <-]. split; [by rewrite setObjects_id|done].
  - rewrite runSteps_cons.
    destruct (step resource builder gcc k c) as [[[]|e] c1] eqn:Hstep;
      apply step_sameExcept in Hstep as (Hc1 & Hsub1 & Hframe1).
    + intros (Hc' & Hsub & Hframe)%IH. split; [|split].
      * rewrite Hc', Hc1. done.
      * by etrans.
      * intros ρ Hρ. rewrite Hframe, Hframe1; [done|..];
          rewrite not_elem_of_cons in Hρ; tauto.
    + intros [= <- <-]. split; [done|]. split; [done|].
      intros ρ Hρ. apply Hframe1. rewrite not_elem_of_cons in Hρ. tauto.
Qed.

(** The steps before a failing one have run, the failing one ends the
    run, and the cluster is the one the failing step left. *)
Lemma runSteps_app_fail before k after c c1 e c2 :
  runSteps (step resource builder gcc <$> before) c = (Ok tt, c1) →
  step resource builder gcc k c1 = (Err e, c2) →
  runSteps (step resource builder gcc <$> (before ++ k :: after)%list) c
  = (Err e, c2).
Proof.
  revert c. induction before as [|k0 before IH]; intros c; simpl.
  - intros [= <-] Hstep. unfold bindM. by rewrite Hstep.
  - unfold bindM.
    destruct (step resource builder gcc k0 c) as [[[]|e0] c0]; [|done].
    apply IH.
Qed.

Lemma runSteps_app_ok before after c c1 :
  runSteps (step resource builder gcc <$> before) c = (Ok tt, c1) →
  runSteps (step resource builder gcc <$> (before ++ after)%list) c
  = runSteps (step resource builder gcc <$> after) c1.
Proof.
  revert c. induction before as [|k0 before IH]; intros c; simpl.
  - by intros [= <-].
  - unfold bindM.
    destruct (step resource builder gcc k0 c) as [[[]|e0] c0]; [|done].
    apply IH.
Qed.

End Steps.

(** ** Class configuration *)

Lemma getGatewayClassConfigForGateway_reads gateway c :
  (getGatewayClassConfigForGateway gateway c).2 = c.
Proof.
  unfold getGatewayClassConfigForGateway, getGatewayClassForGateway,
    getGatewayClassConfigForGatewayClass, bindM, retM.
  destruct (GetGatewayClass _ c) as [gc|err].
  - destruct (ParametersRef gc) as [ref|]; [|done].
    destruct (_ || _); [done|].
    destruct (GetGatewayClassConfig _ c) as [cfg|err]; [done|].
    by destruct (IgnoreNotFound err).
  - by destruct (IgnoreNotFound err).
Qed.

(** The stored children play no part in the resolution. *)
Lemma getGatewayClassConfigForGateway_setObjects gateway c objs :
  (getGatewayClassConfigForGateway gateway (setObjects c objs)).1
  = (getGatewayClassConfigForGateway gateway c).1.
Proof.
  unfold getGatewayClassConfigForGateway, getGatewayClassForGateway,
    getGatewayClassConfigForGatewayClass, bindM, retM,
    GetGatewayClass, GetGatewayClassConfig. simpl.
  destruct (classGetErrors c !! _); [done|].
  destruct (gatewayClasses c !! _) as [gc|]; [|done]. simpl.
  destruct (ParametersRef gc) as [ref|]; [|done].
  destruct (_ || _); [done|].
  destruct (configGetErrors c !! _); [done|].
  by destruct (gatewayClassConfigs c !! _).
Qed.

(** ** The reconcile as a pipeline *)

Section Reconcile.

Context {GatewayConfig : Type}.
Variable NewMeshGatewayBuilder :
  MeshGateway → GatewayConfig → option GatewayClassConfig → MeshGatewayBuilder.

(** [onCreateUpdate] resolves the class configuration and then runs one
    step per kind, in the order of [childOrder], stopping at the first
    step that fails. *)
Lemma onCreateUpdate_pipeline r resource c :
  onCreateUpdate NewMeshGatewayBuilder r resource c
  = match getGatewayClassConfigForGateway resource c with
    | (Ok gcc, c0) =>
        runSteps (step resource (NewMeshGatewayBuilder resource r gcc) gcc
                    <$> childOrder) c0
    | (Err e, c0) => (Err e, c0)
    end.
Proof.
  unfold onCreateUpdate. unfold bindM at 1.
  destruct (getGatewayClassConfigForGateway resource c) as [[gcc|e] c0];
    [|done].
  simpl. unfold step, upsert, bindM, wrapErr, liftR, retM. simpl.
  repeat match goal with
  | |- context [opIfNewOrOwned ?g ?k ?o ?op ?c] =>
      destruct (opIfNewOrOwned g k o op c) as [[[]|?] ?]; try done
  | |- context [bDeployment ?b] => destruct (bDeployment b); try done
  end.
Qed.

Lemma onCreateUpdate_resolved r resource c gcc :
  getGatewayClassConfigForGateway resource c = (Ok gcc, c) →
  onCreateUpdate NewMeshGatewayBuilder r resource c
  = runSteps (step resource (NewMeshGatewayBuilder resource r gcc) gcc
                <$> childOrder) c.
Proof. intros H. by rewrite onCreateUpdate_pipeline, H. Qed.

Lemma onCreateUpdate_unresolved r resource c e :
  (getGatewayClassConfigForGateway resource c).1 = Err e →
  onCreateUpdate NewMeshGatewayBuilder r resource c = (Err e, c).
Proof.
  intros H. rewrite onCreateUpdate_pipeline.
  pose proof (getGatewayClassConfigForGateway_reads resource c) as Hc.
  destruct (getGatewayClassConfigForGateway resource c) as [res c0].
  simpl in *. by subst.
Qed.

End Reconcile.

Lemma childOrder_NoDup : NoDup childOrder.
Proof. unfold childOrder. apply NoDup_ListNoDup. repeat constructor; simpl; intuition discriminate. Qed.

Lemma childOrder_later before k after k' :
  childOrder = (before ++ k :: after)%list → k' ∈ after → k' ∉ before.
Proof.
  intros Horder Hin Hbefore.
  pose proof childOrder_NoDup as Hnd. rewrite Horder in Hnd.
  apply NoDup_app in Hnd as (_ & Hdisj & _).
  apply (Hdisj k' Hbefore). by right.
Qed.

Section Order.

Context {GatewayConfig : Type}.
Variable NewMeshGatewayBuilder :
  MeshGateway → GatewayConfig → option GatewayClassConfig → MeshGatewayBuilder.

(** C2.  Order of the upserts.  A reconcile is the run of one step per
    kind in the order ServiceAccount, Role, RoleBinding, Service,
    Deployment, each step starting from the cluster the previous one left.
    When the kinds [before] have been upserted and the upsert of kind [k]
    returns an error, the reconcile returns that error (wrapped with the
    name of the step) in the cluster that upsert left, which is the one it
    found; no step of a later kind has run: every key of every later kind
    holds what it held when the reconcile started. *)
Theorem onCreateUpdate_order
    r resource c gcc (before after : list Kind) (k : Kind) desired e c1 c2 :
  getGatewayClassConfigForGateway resource c = (Ok gcc, c) →
  childOrder = (before ++ k :: after)%list →
  runSteps (step resource (NewMeshGatewayBuilder resource r gcc) gcc <$> before) c
  = (Ok tt, c1) →
  desiredOf (NewMeshGatewayBuilder resource r gcc) k = Ok desired →
  upsert resource (NewMeshGatewayBuilder resource r gcc) gcc k desired c1
  = (Err e, c2) →
  onCreateUpdate NewMeshGatewayBuilder r resource c
  = runSteps (step resource (NewMeshGatewayBuilder resource r gcc) gcc
                <$> childOrder) c
  ∧ onCreateUpdate NewMeshGatewayBuilder r resource c
    = (Err (Errorf (stepMessage k) e), c2)
  ∧ c2 = c1
  ∧ ∀ k' key, k' ∈ after →
      objects c2 !! (k', key) = objects c !! (k', key).
Proof.
  intros Hgcc Horder Hbefore Hdesired Hupsert.
  pose proof (onCreateUpdate_resolved NewMeshGatewayBuilder r _ _ _ Hgcc) as Hrun.
  split; [done|]. rewrite Hrun, Horder.
  pose proof (upsert_fail_unchanged _ _ _ _ _ _ _ _ Hupsert) as ->.
  split; [|split; [done|]].
  - apply (runSteps_app_fail _ _ _ _ _ _ _ _ _ _ Hbefore).
    rewrite (step_built _ _ _ _ _ _ Hdesired). by rewrite Hupsert.
  - intros k' key Hlater.
    apply runSteps_frame in Hbefore as (_ & _ & Hframe).
    apply Hframe. simpl. by eapply childOrder_later.
Qed.

End Order.

Lemma onCreateUpdate_order_witness :
  onCreateUpdate Scenario.NewMeshGatewayBuilder tt Scenario.gw
    Scenario.manualCluster
  = (Err (Errorf "unable to create service" errResourceNotOwned),
     Scenario.manualClusterWithRBAC)
  ∧ objects Scenario.manualClusterWithRBAC !! (Deployment, ("consul", "gw"))
    = None.
Proof.
  destruct (onCreateUpdate_order Scenario.NewMeshGatewayBuilder tt Scenario.gw
              Scenario.manualCluster None Scenario.rbacKinds [Deployment]
              Service (ObjService Scenario.desiredService)
              errResourceNotOwned
              Scenario.manualClusterWithRBAC Scenario.manualClusterWithRBAC)
    as (_ & Hresult & _ & Hlater).
  - reflexivity.
  - reflexivity.
  - vm_compute. reflexivity.
  - reflexivity.
  - vm_compute. reflexivity.
  - split; [exact Hresult|].
    rewrite Hlater by (apply list_elem_of_singleton; reflexivity).
    reflexivity.
Defined.

(** ** What a successful run leaves behind *)

Lemma step_ok_present resource builder gcc k desired c c' :
  (k = Deployment → keepsMeta builder) →
  desiredOf builder k = Ok desired →
  step resource builder gcc k c = (Ok tt, c') →
  is_Some (objects c' !! (k, ObjectKeyFromObject desired)).
Proof.
  intros Hkeeps Hd [(? & ? & _)|(d & Hd' & _ & Hu)]%step_cases; [done|].
  assert (d = desired) as -> by congruence.
  eapply upsert_ok_present; [done| |done]. by eapply desiredOf_kind.
Qed.

(** After a run without error, the desired object of every kind that was
    run is stored at its key. *)
Lemma runSteps_ok_present resource builder gcc ks c c' :
  (Deployment ∈ ks → keepsMeta builder) →
  runSteps (step resource builder gcc <$> ks) c = (Ok tt, c') →
  ∀ k desired, k ∈ ks → desiredOf builder k = Ok desired →
    is_Some (objects c' !! (k, ObjectKeyFromObject desired)).
Proof.
  revert c. induction ks as [|k0 ks IH]; intros c Hkeeps Hrun k desired Hin Hd.
  { by apply elem_of_nil in Hin. }
  rewrite runSteps_cons in Hrun.
  destruct (step resource builder gcc k0 c) as [[[]|e] c1] eqn:Hstep; [|done].
  apply elem_of_cons in Hin as [->|Hin].
  - eapply step_ok_present in Hstep as [o Ho]; [..|done].
    + apply runSteps_frame in Hrun as (_ & Hsub & _).
      exists o. by eapply lookup_weaken.
    + intros ->. apply Hkeeps. left.
  - eapply IH; [|done..]. intros ?. apply Hkeeps. by right.
Qed.

Section BuildFailure.

Context {GatewayConfig : Type}.
Variable NewMeshGatewayBuilder :
  MeshGateway → GatewayConfig → option GatewayClassConfig → MeshGatewayBuilder.

(** C7.  When the Deployment cannot be built, the reconcile ends with an
    error and no Deployment is written: every Deployment key holds what it
    held before.  When the four earlier steps went through, the error is
    the build error (wrapped as "unable to build deployment"), and the
    cluster is the one those four steps left, with the desired
    ServiceAccount, Role, RoleBinding and Service keys all stored: nothing
    is rolled back. *)
Theorem onCreateUpdate_build_failure r resource c gcc e :
  getGatewayClassConfigForGateway resource c = (Ok gcc, c) →
  bDeployment (NewMeshGatewayBuilder resource r gcc) = Err e →
  (∃ err, (onCreateUpdate NewMeshGatewayBuilder r resource c).1 = Err err)
  ∧ (∀ key,
       objects (onCreateUpdate NewMeshGatewayBuilder r resource c).2
         !! (Deployment, key)
       = objects c !! (Deployment, key))
  ∧ (∀ c4,
       runSteps (step resource (NewMeshGatewayBuilder resource r gcc) gcc
                   <$> [ServiceAccount; Role; RoleBinding; Service]) c
       = (Ok tt, c4) →
       onCreateUpdate NewMeshGatewayBuilder r resource c
       = (Err (Errorf "unable to build deployment" e), c4)
       ∧ ∀ k desired,
           k ∈ [ServiceAccount; Role; RoleBinding; Service] →
           desiredOf (NewMeshGatewayBuilder resource r gcc) k = Ok desired →
           is_Some (objects c4 !! (k, ObjectKeyFromObject desired))).
Proof.
  intros Hgcc Hbuild.
  set (builder := NewMeshGatewayBuilder resource r gcc) in *.
  assert (Hd : desiredOf builder Deployment = Err e) by (simpl; by rewrite Hbuild).
  pose proof (onCreateUpdate_resolved NewMeshGatewayBuilder r _ _ _ Hgcc) as Hrun.
  fold builder in Hrun. rewrite Hrun.
  change childOrder
    with ([ServiceAccount; Role; RoleBinding; Service] ++ [Deployment])%list.
  destruct (runSteps (step resource builder gcc
                        <$> [ServiceAccount; Role; RoleBinding; Service]) c)
    as [r4 c4] eqn:H4.
  assert (Hlast : ∀ c0, runSteps (step resource builder gcc <$> [Deployment]) c0
                        = (Err (Errorf "unable to build deployment" e), c0)).
  { intros c0. rewrite runSteps_cons. by rewrite (step_not_built _ _ _ _ _ _ Hd). }
  pose proof (runSteps_frame _ _ _ _ _ _ _ H4) as (_ & _ & Hframe).
  assert (Hno : ∀ key, objects c4 !! (Deployment, key)
                       = objects c !! (Deployment, key)).
  { intros key. apply Hframe. simpl.
    rewrite !not_elem_of_cons. repeat split; try done. apply not_elem_of_nil. }
  destruct r4 as [[]|e4].
  - rewrite (runSteps_app_ok _ _ _ _ _ _ _ H4), Hlast. simpl.
    split; [by eexists|]. split; [done|].
    intros c4' [= <-]. split; [done|].
    intros k desired Hin Hdes.
    eapply runSteps_ok_present; [|done..].
    intros Hin'. repeat (apply elem_of_cons in Hin' as [?|Hin']; [done|]).
    by apply elem_of_nil in Hin'.
  - assert (runSteps (step resource builder gcc
              <$> ([ServiceAccount; Role; RoleBinding; Service] ++ [Deployment])%list)
              c = (Err e4, c4)) as ->.
    { clear Hframe Hno. revert H4.
      simpl. unfold bindM.
      repeat match goal with
      | |- context [step ?a ?b ?g ?k ?c] =>
          destruct (step a b g k c) as [[[]|?] ?]; try done
      end. }
    simpl. split; [by eexists|]. split; [done|]. done.
Qed.

End BuildFailure.

Lemma onCreateUpdate_build_failure_witness :
  onCreateUpdate Scenario.NewFailingBuilder tt Scenario.gw Scenario.emptyCluster
  = (Err (Errorf "unable to build deployment"
            (ErrorNew "invalid class configuration")),
     Scenario.committedCluster)
  ∧ objects Scenario.committedCluster !! (Deployment, ("consul", "gw")) = None
  ∧ is_Some (objects Scenario.committedCluster !! (Service, ("consul", "gw"))).
Proof.
  destruct (onCreateUpdate_build_failure Scenario.NewFailingBuilder tt
              Scenario.gw Scenario.emptyCluster None
              (ErrorNew "invalid class configuration") eq_refl eq_refl)
    as (_ & Hno & Hcommitted).
  destruct (Hcommitted Scenario.committedCluster) as [Hresult Hstored].
  { vm_compute. reflexivity. }
  split; [exact Hresult|]. split.
  - specialize (Hno ("consul", "gw")). rewrite Hresult in Hno. exact Hno.
  - apply (Hstored Service (ObjService Scenario.desiredService)).
    + do 3 right. left.
    + reflexivity.
Defined.

Section ClassConfiguration.

Context {GatewayConfig : Type}.
Variable NewMeshGatewayBuilder :
  MeshGateway → GatewayConfig → option GatewayClassConfig → MeshGatewayBuilder.

(** C8.  Resolution of the class configuration at the start of a
    reconcile.  A gateway class that is not found, a parameters reference
    of another group or kind, and a referenced configuration that is not
    found each yield no error and the nil configuration, with which the
    pipeline then runs.  A lookup of the class or of the configuration that
    fails in any other way is returned as the error of the reconcile, and
    the cluster is left as it was: no child is upserted.  (A class without
    a parameters reference yields the zero-value configuration.) *)
Theorem getGatewayClassConfigForGateway_best_effort r resource c :
  (∀ err,
     GetGatewayClass (GatewayClassName resource) c = Err err →
     IsNotFound err = true →
     getGatewayClassConfigForGateway resource c = (Ok None, c))
  ∧ (∀ gatewayClass ref,
       GetGatewayClass (GatewayClassName resource) c = Ok gatewayClass →
       ParametersRef gatewayClass = Some ref →
       prGroup ref ≠ MeshGroup ∨ prKind ref ≠ "GatewayClassConfig" →
       getGatewayClassConfigForGateway resource c = (Ok None, c))
  ∧ (∀ gatewayClass ref err,
       GetGatewayClass (GatewayClassName resource) c = Ok gatewayClass →
       ParametersRef gatewayClass = Some ref →
       prGroup ref = MeshGroup → prKind ref = "GatewayClassConfig" →
       GetGatewayClassConfig (prName ref) c = Err err →
       IsNotFound err = true →
       getGatewayClassConfigForGateway resource c = (Ok None, c))
  ∧ (getGatewayClassConfigForGateway resource c = (Ok None, c) →
     onCreateUpdate NewMeshGatewayBuilder r resource c
     = runSteps (step resource (NewMeshGatewayBuilder resource r None) None
                   <$> childOrder) c)
  ∧ (∀ err,
       GetGatewayClass (GatewayClassName resource) c = Err err →
       IsNotFound err = false →
       getGatewayClassConfigForGateway resource c = (Err err, c)
       ∧ onCreateUpdate NewMeshGatewayBuilder r resource c = (Err err, c))
  ∧ (∀ gatewayClass ref err,
       GetGatewayClass (GatewayClassName resource) c = Ok gatewayClass →
       ParametersRef gatewayClass = Some ref →
       prGroup ref = MeshGroup → prKind ref = "GatewayClassConfig" →
       GetGatewayClassConfig (prName ref) c = Err err →
       IsNotFound err = false →
       getGatewayClassConfigForGateway resource c = (Err err, c)
       ∧ onCreateUpdate NewMeshGatewayBuilder r resource c = (Err err, c))
  ∧ (∀ gatewayClass,
       GetGatewayClass (GatewayClassName resource) c = Ok gatewayClass →
       ParametersRef gatewayClass = None →
       getGatewayClassConfigForGateway resource c
       = (Ok (Some emptyGatewayClassConfig), c)).
Proof.
  split; [|split; [|split; [|split; [|split; [|split]]]]].
  - intros err Hget Hnf.
    unfold getGatewayClassConfigForGateway, getGatewayClassForGateway,
      bindM, IgnoreNotFound. by rewrite Hget, Hnf.
  - intros gc ref Hget Href Hwrong.
    unfold getGatewayClassConfigForGateway, getGatewayClassForGateway,
      getGatewayClassConfigForGatewayClass, bindM. rewrite Hget. simpl.
    rewrite Href. destruct Hwrong as [Hg|Hk].
    + by rewrite (bool_decide_eq_false_2 _ Hg).
    + rewrite (bool_decide_eq_false_2 _ Hk). by rewrite orb_true_r.
  - intros gc ref err Hget Href Hg Hk Hcfg Hnf.
    unfold getGatewayClassConfigForGateway, getGatewayClassForGateway,
      getGatewayClassConfigForGatewayClass, bindM, IgnoreNotFound.
    rewrite Hget. simpl. rewrite Href, !bool_decide_eq_true_2 by done. simpl.
    by rewrite Hcfg, Hnf.
  - intros H. by apply onCreateUpdate_resolved.
  - intros err Hget Hnf.
    assert (getGatewayClassConfigForGateway resource c = (Err err, c)) as H.
    { unfold getGatewayClassConfigForGateway, getGatewayClassForGateway,
        bindM, IgnoreNotFound. by rewrite Hget, Hnf. }
    split; [done|]. apply onCreateUpdate_unresolved. by rewrite H.
  - intros gc ref err Hget Href Hg Hk Hcfg Hnf.
    assert (getGatewayClassConfigForGateway resource c = (Err err, c)) as H.
    { unfold getGatewayClassConfigForGateway, getGatewayClassForGateway,
        getGatewayClassConfigForGatewayClass, bindM, IgnoreNotFound.
      rewrite Hget. simpl. rewrite Href, !bool_decide_eq_true_2 by done. simpl.
      by rewrite Hcfg, Hnf. }
    split; [done|]. apply onCreateUpdate_unresolved. by rewrite H.
  - intros gc Hget Href.
    unfold getGatewayClassConfigForGateway, getGatewayClassForGateway,
      getGatewayClassConfigForGatewayClass, bindM. rewrite Hget. simpl.
    by rewrite Href.
Qed.

End ClassConfiguration.

Lemma getGatewayClassConfigForGateway_best_effort_witness :
  getGatewayClassConfigForGateway Scenario.gw Scenario.emptyCluster
  = (Ok None, Scenario.emptyCluster)
  ∧ getGatewayClassConfigForGateway Scenario.gw Scenario.wrongKindCluster
    = (Ok None, Scenario.wrongKindCluster)
  ∧ getGatewayClassConfigForGateway Scenario.gw Scenario.danglingCluster
    = (Ok None, Scenario.danglingCluster)
  ∧ onCreateUpdate Scenario.NewMeshGatewayBuilder tt Scenario.gw
      Scenario.classTimeoutCluster
    = (Err (StatusError "timeout"), Scenario.classTimeoutCluster)
  ∧ onCreateUpdate Scenario.NewMeshGatewayBuilder tt Scenario.gw
      Scenario.configTimeoutCluster
    = (Err (StatusError "timeout"), Scenario.configTimeoutCluster).
Proof.
  split; [|split; [|split; [|split]]].
  - eapply (proj1 (getGatewayClassConfigForGateway_best_effort
             Scenario.NewMeshGatewayBuilder tt Scenario.gw
             Scenario.emptyCluster)); reflexivity.
  - eapply (proj1 (proj2 (getGatewayClassConfigForGateway_best_effort
             Scenario.NewMeshGatewayBuilder tt Scenario.gw
             Scenario.wrongKindCluster))).
    + reflexivity.
    + reflexivity.
    + left. discriminate.
  - eapply (proj1 (proj2 (proj2 (getGatewayClassConfigForGateway_best_effort
             Scenario.NewMeshGatewayBuilder tt Scenario.gw
             Scenario.danglingCluster)))); reflexivity.
  - eapply (proj1 (proj2 (proj2 (proj2 (proj2
             (getGatewayClassConfigForGateway_best_effort
                Scenario.NewMeshGatewayBuilder tt Scenario.gw
                Scenario.classTimeoutCluster)))))); reflexivity.
  - eapply (proj1 (proj2 (proj2 (proj2 (proj2 (proj2
             (getGatewayClassConfigForGateway_best_effort
                Scenario.NewMeshGatewayBuilder tt Scenario.gw
                Scenario.configTimeoutCluster))))))); reflexivity.
Defined.

(** ** Every write is owned *)

Lemma writesOwned_refl gateway c : writesOwned gateway c c.
Proof. intros ρ. by left. Qed.

Lemma writesOwned_trans gateway c1 c2 c3 :
  writesOwned gateway c1 c2 → writesOwned gateway c2 c3 →
  writesOwned gateway c1 c3.
Proof.
  intros H12 H23 ρ. destruct (H23 ρ) as [Heq|Hown]; [|by right].
  rewrite Heq. apply H12.
Qed.

Lemma step_writesOwned resource builder gcc k c r c' :
  (k = Deployment → keepsMeta builder) →
  step resource builder gcc k c = (r, c') →
  writesOwned resource c c'.
Proof.
  intros Hkeeps [(? & _ & ->)|(desired & Hd & _ & Hu)]%step_cases.
  - apply writesOwned_refl.
  - eapply upsert_writesOwned; [done| |done]. by eapply desiredOf_kind.
Qed.

Lemma runSteps_writesOwned resource builder gcc ks c r c' :
  keepsMeta builder →
  runSteps (step resource builder gcc <$> ks) c = (r, c') →
  writesOwned resource c c'.
Proof.
  intros Hkeeps. revert c. induction ks as [|k ks IH]; intros c.
  - intros [= <- <-]. apply writesOwned_refl.
  - rewrite runSteps_cons.
    destruct (step resource builder gcc k c) as [[[]|e] c1] eqn:Hstep;
      apply step_writesOwned in Hstep; [|done| |done].
    + intros H%IH. by eapply writesOwned_trans.
    + by intros [= <- <-].
Qed.

Lemma Scenario_builder_keepsMeta deployment :
  keepsMeta (Scenario.builder deployment).
Proof. intros gcc old new. by destruct old. Qed.

Section OwnerReference.

Context {GatewayConfig : Type}.
Variable NewMeshGatewayBuilder :
  MeshGateway → GatewayConfig → option GatewayClassConfig → MeshGatewayBuilder.

(** C6.  The owner reference.  Stamping is the first thing an upsert does:
    when it is refused the upsert ends there, whatever is stored; when it
    goes through, the lookup uses the key of the stamped object and the
    operation, on the create path (nothing observed) as on the update path
    (something observed), receives the stamped object, whose owner
    references name the gateway.  Consequently, provided the Deployment
    merge hands back the metadata of the desired Deployment, every object
    that a reconcile stores carries an owner reference to the gateway. *)
Theorem upsert_stamps_owner_reference r resource c :
  (∀ scanTarget writeSource (op : ownedObjectOp),
     (∃ err, opIfNewOrOwned resource scanTarget writeSource op c = (Err err, c))
     ∨ ∃ observed stamped,
         SetControllerReference resource writeSource (scheme c) = Ok stamped
         ∧ hasOwner resource stamped
         ∧ refOf stamped = refOf writeSource
         ∧ opIfNewOrOwned resource scanTarget writeSource op c
           = op observed stamped c)
  ∧ (∀ scanTarget writeSource (op : ownedObjectOp) err,
       SetControllerReference resource writeSource (scheme c) = Err err →
       opIfNewOrOwned resource scanTarget writeSource op c = (Err err, c))
  ∧ ((∀ gcc, keepsMeta (NewMeshGatewayBuilder resource r gcc)) →
     writesOwned resource c
       (onCreateUpdate NewMeshGatewayBuilder r resource c).2).
Proof.
  split; [|split].
  - intros scanTarget writeSource op.
    destruct (SetControllerReference resource writeSource (scheme c))
      as [stamped|err] eqn:Hs.
    2:{ left. exists err. by apply opIfNewOrOwned_not_stamped. }
    rewrite (opIfNewOrOwned_stamped _ _ _ _ _ _ Hs).
    pose proof (SetControllerReference_Ok _ _ _ _ Hs) as (_ & _ & Hown).
    pose proof (SetControllerReference_key _ _ _ _ Hs) as [Hkind Hkey].
    assert (refOf stamped = refOf writeSource) as Href
      by (unfold refOf; congruence).
    destruct (Get _ _ _) as [existing|err].
    + destruct (ownedBy _ _); [right|left]; eauto 10.
    + destruct (IsNotFound err); [right|left]; eauto 10.
  - intros scanTarget writeSource op err.
    apply opIfNewOrOwned_not_stamped.
  - intros Hkeeps. rewrite onCreateUpdate_pipeline.
    pose proof (getGatewayClassConfigForGateway_reads resource c) as Hc.
    destruct (getGatewayClassConfigForGateway resource c) as [[gcc|e] c0];
      simpl in Hc; subst c0.
    + destruct (runSteps _ c) as [res c'] eqn:Hrun. simpl.
      by eapply runSteps_writesOwned.
    + apply writesOwned_refl.
Qed.

End OwnerReference.

Lemma upsert_stamps_owner_reference_witness :
  opIfNewOrOwned Scenario.gw Service (ObjService Scenario.strayService)
    mergeServiceOp Scenario.manualCluster
  = (Err (ErrorNew "cross-namespace owner references are disallowed"),
     Scenario.manualCluster)
  ∧ writesOwned Scenario.gw Scenario.emptyCluster
      (onCreateUpdate Scenario.NewMeshGatewayBuilder tt Scenario.gw
         Scenario.emptyCluster).2.
Proof.
  destruct (upsert_stamps_owner_reference Scenario.NewMeshGatewayBuilder tt
              Scenario.gw Scenario.manualCluster) as (_ & Hrefused & _).
  destruct (upsert_stamps_owner_reference Scenario.NewMeshGatewayBuilder tt
              Scenario.gw Scenario.emptyCluster) as (_ & _ & Hwrites).
  split.
  - apply Hrefused. reflexivity.
  - apply Hwrites. intros gcc. apply Scenario_builder_keepsMeta.
Defined.

(** ** Reconciling twice *)

Lemma step_present_unchanged resource builder gcc k desired c :
  (k = Deployment → keepsMeta builder) →
  desiredOf builder k = Ok desired →
  is_Some (objects c !! (k, ObjectKeyFromObject desired)) →
  (step resource builder gcc k c).2 = c.
Proof.
  intros Hkeeps Hd Hstored. rewrite (step_built _ _ _ _ _ _ Hd).
  pose proof (upsert_present_unchanged resource builder gcc k desired c Hkeeps
                (desiredOf_kind _ _ _ Hd) Hstored) as Hu.
  by destruct (upsert _ _ _ _ _ _) as [[] ?].
Qed.

(** A second run of the same steps writes nothing. *)
Lemma runSteps_idempotent resource builder gcc ks c :
  keepsMeta builder →
  (runSteps (step resource builder gcc <$> ks)
     (runSteps (step resource builder gcc <$> ks) c).2).2
  = (runSteps (step resource builder gcc <$> ks) c).2.
Proof.
  intros Hkeeps. revert c. induction ks as [|k ks IH]; intros c; [done|].
  rewrite (runSteps_cons _ _ _ k ks c).
  destruct (step resource builder gcc k c) as [[[]|e] c1] eqn:Hstep.
  - set (cf := (runSteps (step resource builder gcc <$> ks) c1).2).
    pose proof Hstep as [(? & ? & _)|(desired & Hd & _ & _)]%step_cases; [done|].
    assert (Hstored : is_Some (objects cf !! (k, ObjectKeyFromObject desired))).
    { eapply step_ok_present in Hstep as [o Ho]; [|done..].
      destruct (runSteps (step resource builder gcc <$> ks) c1)
        as [rf cf'] eqn:Hrun.
      apply runSteps_frame in Hrun as (_ & Hsub & _).
      exists o. by eapply lookup_weaken. }
    pose proof (step_present_unchanged resource builder gcc k desired cf
                  (λ _, Hkeeps) Hd Hstored) as Hsame.
    rewrite runSteps_cons.
    destruct (step resource builder gcc k cf) as [[[]|e'] c2];
      simpl in Hsame; subst c2; [apply IH | done].
  - pose proof Hstep as [(? & _ & ->)|(? & _ & ? & _)]%step_cases; [|done].
    cbn [snd]. rewrite runSteps_cons. by rewrite Hstep.
Qed.

Lemma runSteps_ok_inv resource builder gcc k ks c c' :
  runSteps (step resource builder gcc <$> k :: ks) c = (Ok tt, c') →
  ∃ c1, step resource builder gcc k c = (Ok tt, c1)
        ∧ runSteps (step resource builder gcc <$> ks) c1 = (Ok tt, c').
Proof.
  rewrite runSteps_cons.
  destruct (step resource builder gcc k c) as [[[]|e] c1]; [|done]. eauto.
Qed.

Lemma mergeStrategy_Service_noop builder gcc observed desired :
  mergeStrategy builder gcc Service (Some (ObjService observed))
    (ObjService desired) = Ok (ObjService desired)
  ↔ sameAnnotationsAndPorts observed desired.
Proof.
  simpl. rewrite mergeService_Some.
  destruct (decide (sameAnnotationsAndPorts observed desired)) as [H|H].
  - done.
  - split; [|done]. intros [= Heq]. exfalso. apply H.
    rewrite <- Heq. apply overwritten_same.
Qed.

Lemma Get_setObjects k key c objs :
  objs !! (k, key) = objects c !! (k, key) →
  Get k key (setObjects c objs) = Get k key c.
Proof. unfold Get. simpl. by intros ->. Qed.

(** When nothing is stored at the Service key, a Service step that goes
    through stores the stamped desired Service as it is. *)
Lemma step_Service_created resource builder gcc stamped c c' :
  SetControllerReference resource (ObjService (bService builder)) (scheme c)
  = Ok (ObjService stamped) →
  Get Service (ObjectKeyFromObject (ObjService stamped)) c = Err StatusNotFound →
  step resource builder gcc Service c = (Ok tt, c') →
  objects c' !! refOf (ObjService stamped) = Some (ObjService stamped).
Proof.
  intros Hs Hget. rewrite (step_built _ _ _ _ (ObjService (bService builder)))
    by done.
  unfold upsert. rewrite (opIfNewOrOwned_stamped _ _ _ _ _ _ Hs).
  destruct (SetControllerReference_key _ _ _ _ Hs) as [_ <-].
  rewrite Hget. cbn [IsNotFound]. rewrite opOf_mergeStrategy.
  cbn [mergeStrategy asService fst]. rewrite mergeService_nil by tauto.
  destruct (CreateOrUpdate _ _ c) as [res c0] eqn:Hw.
  apply CreateOrUpdate_nop_cases in Hw
    as [[-> [[e ->]|[o Ho]]]|(-> & Hnone & ->)].
  - done.
  - exfalso. revert Hget. unfold Get, refOf in *. simpl in *.
    destruct (getErrors c !! _); [done|]. by rewrite Ho.
  - intros [= <-]. simpl. apply lookup_insert_eq.
Qed.

Section Idempotence.

Context {GatewayConfig : Type}.
Variable NewMeshGatewayBuilder :
  MeshGateway → GatewayConfig → option GatewayClassConfig → MeshGatewayBuilder.

Lemma onCreateUpdate_idempotent r resource c :
  (∀ gcc, keepsMeta (NewMeshGatewayBuilder resource r gcc)) →
  (onCreateUpdate NewMeshGatewayBuilder r resource
     (onCreateUpdate NewMeshGatewayBuilder r resource c).2).2
  = (onCreateUpdate NewMeshGatewayBuilder r resource c).2.
Proof.
  intros Hkeeps.
  pose proof (getGatewayClassConfigForGateway_reads resource c) as Hc.
  destruct (getGatewayClassConfigForGateway resource c) as [[gcc|e] c0] eqn:Hgcc;
    simpl in Hc; subst c0.
  - rewrite (onCreateUpdate_resolved _ _ _ _ _ Hgcc).
    destruct (runSteps _ c) as [res cf] eqn:Hrun.
    pose proof (runSteps_frame _ _ _ _ _ _ _ Hrun) as (Hcf & _ & _).
    assert (getGatewayClassConfigForGateway resource cf = (Ok gcc, cf)) as Hgcc'.
    { pose proof (getGatewayClassConfigForGateway_reads resource cf) as Hc'.
      pose proof (getGatewayClassConfigForGateway_setObjects resource c
                    (objects cf)) as H1.
      rewrite <- Hcf, Hgcc in H1.
      destruct (getGatewayClassConfigForGateway resource cf).
      simpl in *. congruence. }
    cbn [snd]. rewrite (onCreateUpdate_resolved _ _ _ _ _ Hgcc').
    pose proof (runSteps_idempotent resource _ gcc childOrder c (Hkeeps gcc))
      as Hidem.
    by rewrite Hrun in Hidem.
  - assert (onCreateUpdate NewMeshGatewayBuilder r resource c = (Err e, c))
      as Hrun by (apply onCreateUpdate_unresolved; by rewrite Hgcc).
    rewrite Hrun. cbn [snd]. by rewrite Hrun.
Qed.

(** C5, as amended.  Reconciling the same gateway twice, nothing else
    touching the cluster in between, leaves the cluster after the second
    run identical to the cluster after the first (the Deployment merge
    being assumed to hand back the desired Deployment's metadata).  In any
    run the Replace strategy of ServiceAccount, Role and RoleBinding
    returns its desired input; the Service merge returns its desired input
    exactly when the Service it observes agrees with it on annotations and
    on the (port-number, protocol) list; and this is the case in the second
    run whenever the first run went through and created the Service, for
    then the Service it observes is the desired one itself. *)
Theorem onCreateUpdate_twice r resource c :
  (∀ gcc, keepsMeta (NewMeshGatewayBuilder resource r gcc)) →
  (onCreateUpdate NewMeshGatewayBuilder r resource
     (onCreateUpdate NewMeshGatewayBuilder r resource c).2).2
  = (onCreateUpdate NewMeshGatewayBuilder r resource c).2
  ∧ (∀ builder gcc k observed desired,
       k ∈ [ServiceAccount; Role; RoleBinding] →
       mergeStrategy builder gcc k observed desired = Ok desired)
  ∧ (∀ builder gcc observed desired,
       mergeStrategy builder gcc Service (Some (ObjService observed))
         (ObjService desired) = Ok (ObjService desired)
       ↔ sameAnnotationsAndPorts observed desired)
  ∧ (∀ gcc stamped,
       getGatewayClassConfigForGateway resource c = (Ok gcc, c) →
       SetControllerReference resource
         (ObjService (bService (NewMeshGatewayBuilder resource r gcc))) (scheme c)
       = Ok (ObjService stamped) →
       Get Service (ObjectKeyFromObject (ObjService stamped)) c
       = Err StatusNotFound →
       (onCreateUpdate NewMeshGatewayBuilder r resource c).1 = Ok tt →
       objects (onCreateUpdate NewMeshGatewayBuilder r resource c).2
         !! refOf (ObjService stamped) = Some (ObjService stamped)
       ∧ mergeStrategy (NewMeshGatewayBuilder resource r gcc) gcc Service
           (Some (ObjService stamped)) (ObjService stamped)
         = Ok (ObjService stamped)).
Proof.
  intros Hkeeps. split; [by apply onCreateUpdate_idempotent|].
  split; [|split].
  - intros builder gcc k observed desired Hk.
    repeat (apply elem_of_cons in Hk as [->|Hk]; [done|]).
    by apply elem_of_nil in Hk.
  - intros. apply mergeStrategy_Service_noop.
  - intros gcc stamped Hgcc Hs Hget Hok.
    split; [|by apply mergeStrategy_Service_noop].
    rewrite (onCreateUpdate_resolved _ _ _ _ _ Hgcc) in *.
    set (builder := NewMeshGatewayBuilder resource r gcc) in *.
    destruct (runSteps (step resource builder gcc <$> childOrder) c)
      as [res cf] eqn:Hrun.
    simpl in Hok. subst res. cbn [snd].
    change childOrder
      with ([ServiceAccount; Role; RoleBinding] ++ [Service; Deployment])%list
      in Hrun.
    destruct (runSteps (step resource builder gcc
                          <$> [ServiceAccount; Role; RoleBinding]) c)
      as [res3 c3] eqn:H3.
    assert (res3 = Ok tt) as ->.
    { revert H3 Hrun. simpl. unfold bindM.
      repeat match goal with
      | |- context [step ?a ?b ?g ?k ?c] =>
          destruct (step a b g k c) as [[[]|?] ?]; try done
      end; by intros [= <- <-]. }
    rewrite (runSteps_app_ok _ _ _ _ _ _ _ H3) in Hrun.
    apply runSteps_ok_inv in Hrun as (c4 & Hservice & Hrun).
    apply runSteps_frame in H3 as (Hc3 & _ & Hframe3).
    apply runSteps_frame in Hrun as (_ & Hsub & _).
    eapply lookup_weaken; [|exact Hsub].
    eapply step_Service_created; [| |exact Hservice].
    + rewrite Hc3. exact Hs.
    + rewrite Hc3, Get_setObjects; [done|]. apply Hframe3. simpl.
      rewrite !not_elem_of_cons. repeat split; try done. apply not_elem_of_nil.
Qed.

End Idempotence.

Lemma onCreateUpdate_twice_witness :
  (onCreateUpdate Scenario.NewMeshGatewayBuilder tt Scenario.gw
     Scenario.createdCluster).2 = Scenario.createdCluster
  ∧ objects Scenario.createdCluster !! Scenario.serviceRef
    = Some (ObjService Scenario.stampedService)
  ∧ mergeStrategy (Scenario.NewMeshGatewayBuilder Scenario.gw tt None) None
      Service (Some (ObjService Scenario.stampedService))
      (ObjService Scenario.stampedService)
    = Ok (ObjService Scenario.stampedService).
Proof.
  destruct (onCreateUpdate_twice Scenario.NewMeshGatewayBuilder tt Scenario.gw
              Scenario.emptyCluster) as (Hidem & _ & _ & Hcreated).
  { intros gcc. apply Scenario_builder_keepsMeta. }
  split; [exact Hidem|].
  apply (Hcreated None Scenario.stampedService).
  - reflexivity.
  - reflexivity.
  - reflexivity.
  - vm_compute. reflexivity.
Defined.

(** In Scenario C the second reconcile goes through, and its Service step
    hands the drifted Service and the stamped desired Service to the
    merge. *)
Example second_run_invokes_merge :
  (onCreateUpdate Scenario.NewMeshGatewayBuilder tt Scenario.gw
     Scenario.driftedAfterFirstRun)
  = (Ok tt, Scenario.driftedAfterFirstRun)
  ∧ opIfNewOrOwned Scenario.gw Service (ObjService Scenario.desiredService)
      mergeServiceOp Scenario.driftedAfterFirstRun
    = mergeServiceOp (Some (ObjService Scenario.driftedService))
        (ObjService Scenario.stampedService) Scenario.driftedAfterFirstRun
  ∧ mergeService (Some Scenario.driftedService) (Some Scenario.stampedService)
    = Ok (Some (overwritten Scenario.driftedService Scenario.stampedService)).
Proof.
  split; [vm_compute; reflexivity|]. split.
  - apply (opIfNewOrOwned_stamped Scenario.gw Service
             (ObjService Scenario.desiredService) mergeServiceOp
             Scenario.driftedAfterFirstRun (ObjService Scenario.stampedService)).
    reflexivity.
  - rewrite mergeService_Some. by rewrite decide_False by (by intros [[=] _]).
Qed.

(** C5 as stated fails in Scenario C: the gateway's own Service carries an
    annotation and a port that the builder does not produce.  Two
    reconciles leave the same cluster, the second goes through, and the
    Service merge of the second run, applied to the Service it observes
    and the stamped desired Service, does not return the desired Service:
    it returns it with the observed annotations and ports. *)
Lemma onCreateUpdate_twice_counterexample :
  ¬ ((onCreateUpdate Scenario.NewMeshGatewayBuilder tt Scenario.gw
        Scenario.driftedAfterFirstRun).2 = Scenario.driftedAfterFirstRun
     ∧ ∀ observed stamped,
         (onCreateUpdate Scenario.NewMeshGatewayBuilder tt Scenario.gw
            Scenario.driftedAfterFirstRun).1 = Ok tt →
         SetControllerReference Scenario.gw
           (ObjService (bService (Scenario.NewMeshGatewayBuilder Scenario.gw tt None)))
           (scheme Scenario.driftedAfterFirstRun)
         = Ok (ObjService stamped) →
         Get Service (ObjectKeyFromObject (ObjService stamped))
           Scenario.driftedAfterFirstRun
         = Ok (ObjService observed) →
         hasOwner Scenario.gw (ObjService observed) →
         mergeService (Some observed) (Some stamped) = Ok (Some stamped)).
Proof.
  intros [_ Hnoop].
  specialize (Hnoop Scenario.driftedService Scenario.stampedService).
  rewrite mergeService_Some in Hnoop.
  rewrite decide_False in Hnoop by (by intros [[=] _]).
  assert (overwritten Scenario.driftedService Scenario.stampedService
          ≠ Scenario.stampedService) as Hne by discriminate.
  apply Hne. enough (Ok (Some (overwritten Scenario.driftedService
                                 Scenario.stampedService))
                     = Ok (Some Scenario.stampedService)) by congruence.
  apply Hnoop.
  - vm_compute. reflexivity.
  - reflexivity.
  - vm_compute. reflexivity.
  - rewrite <- ownedBy_hasOwner. reflexivity.
Qed.

(** * Further properties of the controller *)

(** ** The owner scan and the lookup of [opIfNewOrOwned] *)

(** X1.  A lookup of the stored object that fails in any way other than
    "not found" ends [opIfNewOrOwned] with that very error: the operation
    is not run, whatever it is, and the cluster is left as it was. *)
Theorem opIfNewOrOwned_lookup_failure
    gateway (scanTarget : Kind) (writeSource stamped : Object)
    (op : ownedObjectOp) (c : Client) err :
  SetControllerReference gateway writeSource (scheme c) = Ok stamped →
  Get scanTarget (ObjectKeyFromObject writeSource) c = Err err →
  IsNotFound err = false →
  opIfNewOrOwned gateway scanTarget writeSource op c = (Err err, c).
Proof.
  intros Hs Hget Hnf.
  rewrite (opIfNewOrOwned_stamped _ _ _ _ _ _ Hs), Hget. by rewrite Hnf.
Qed.

Lemma opIfNewOrOwned_lookup_failure_witness :
  opIfNewOrOwned Scenario.gw Service (ObjService Scenario.desiredService)
    mergeServiceOp Scenario.serviceTimeoutCluster
  = (Err (StatusError "timeout"), Scenario.serviceTimeoutCluster).
Proof.
  apply (opIfNewOrOwned_lookup_failure Scenario.gw Service
           (ObjService Scenario.desiredService)
           (ObjService Scenario.stampedService)); reflexivity.
Defined.

(** X2.  The scan of the owner references answers "owned" exactly when
    some reference carries both the uid and the name of the gateway.  A
    reference that matches on one of the two only does not count, and the
    kind, API version and controller flag of a reference play no part. *)
Theorem ownedBy_uid_and_name gateway (owners : list OwnerReference) :
  ownedBy gateway owners = true
  ↔ Exists (λ reference,
              orUID reference = UID (mgMeta gateway)
              ∧ orName reference = Name (mgMeta gateway)) owners.
Proof.
  induction owners as [|r rest IH]; simpl.
  - split; [done|]. by intros ?%Exists_nil.
  - rewrite Exists_cons, <- IH.
    destruct (decide (orUID r = UID (mgMeta gateway))) as [Hu|Hu];
      destruct (decide (orName r = Name (mgMeta gateway))) as [Hn|Hn];
      rewrite ?(bool_decide_eq_true_2 _ Hu), ?(bool_decide_eq_true_2 _ Hn),
        ?(bool_decide_eq_false_2 _ Hu), ?(bool_decide_eq_false_2 _ Hn);
      simpl; tauto.
Qed.

(** ** The Service comparison *)

Lemma portKey_fmap_Forall2 (l1 l2 : list ServicePort) :
  portKey <$> l1 = portKey <$> l2
  ↔ Forall2 (λ p q, spPort p = spPort q ∧ spProtocol p = spProtocol q) l1 l2.
Proof.
  rewrite list_eq_Forall2, Forall2_fmap. unfold portKey.
  split; intros H; (eapply Forall2_impl; [exact H|]); intros p q.
  - by intros [= -> ->].
  - by intros [-> ->].
Qed.

(** X3.  On two services that are present, [areServicesEqual] answers
    true exactly when the annotation maps are equal and the port lists
    have the same length and agree, position by position, on port number
    and protocol.  Nothing else is compared: not the name, target port or
    node port of a port, not the selector, the type or the labels. *)
Theorem areServicesEqual_pairwise (a b : ServiceT) :
  areServicesEqual (Some a) (Some b) = Ok true
  ↔ Annotations (svcMeta a) = Annotations (svcMeta b)
    ∧ Forall2 (λ p q, spPort p = spPort q ∧ spProtocol p = spProtocol q)
        (Ports (svcSpec a)) (Ports (svcSpec b)).
Proof.
  rewrite areServicesEqual_Some, <- portKey_fmap_Forall2.
  fold (sameAnnotationsAndPorts a b).
  destruct (decide (sameAnnotationsAndPorts a b)) as [H|H].
  - by rewrite (bool_decide_eq_true_2 _ H).
  - rewrite (bool_decide_eq_false_2 _ H). split; [done|tauto].
Qed.

(** X4.  [areServicesEqual] is reflexive and symmetric on possibly-nil
    services, and transitive on services that are present. *)
Theorem areServicesEqual_equivalence :
  (∀ a, areServicesEqual a a = Ok true)
  ∧ (∀ a b, areServicesEqual a b = areServicesEqual b a)
  ∧ (∀ a b c,
       areServicesEqual (Some a) (Some b) = Ok true →
       areServicesEqual (Some b) (Some c) = Ok true →
       areServicesEqual (Some a) (Some c) = Ok true).
Proof.
  split; [|split].
  - intros [a|]; [|done]. rewrite areServicesEqual_Some.
    by rewrite bool_decide_eq_true_2.
  - intros [a|] [b|]; try done. rewrite !areServicesEqual_Some.
    f_equal. apply bool_decide_ext. unfold sameAnnotationsAndPorts.
    split; intros [-> ->]; done.
  - intros a b c. rewrite !areServicesEqual_Some.
    intros [= Hab%bool_decide_eq_true_1] [= Hbc%bool_decide_eq_true_1].
    f_equal. apply bool_decide_eq_true_2.
    destruct Hab as [Ha1 Ha2], Hbc as [Hb1 Hb2]. split; congruence.
Qed.

Lemma areServicesEqual_equivalence_witness :
  areServicesEqual (Some Scenario.normalizedService)
    (Some Scenario.desiredService) = Ok true.
Proof.
  apply (proj2 (proj2 areServicesEqual_equivalence)
           Scenario.normalizedService Scenario.stampedService
           Scenario.desiredService); reflexivity.
Defined.

(** X5.  Whatever is observed, the Service merge hands back a Service
    with the kind, namespace and name of the desired one, and with its
    uid, labels, owner references, selector and type: the merge never
    drops the owner reference that was stamped on the desired Service and
    never moves it to another key. *)
Theorem mergeService_keeps_identity (from : option ServiceT) (to : ServiceT) :
  ∃ merged,
    mergeService from (Some to) = Ok (Some merged)
    ∧ refOf (ObjService merged) = refOf (ObjService to)
    ∧ OwnerReferences (svcMeta merged) = OwnerReferences (svcMeta to)
    ∧ UID (svcMeta merged) = UID (svcMeta to)
    ∧ Labels (svcMeta merged) = Labels (svcMeta to)
    ∧ Selector (svcSpec merged) = Selector (svcSpec to)
    ∧ Type_ (svcSpec merged) = Type_ (svcSpec to).
Proof.
  destruct from as [f|].
  - rewrite mergeService_Some. eexists. split; [reflexivity|].
    by destruct (decide (sameAnnotationsAndPorts f to)).
  - rewrite mergeService_nil by tauto. by eexists.
Qed.

(** ** Resolution of the class configuration *)

(** X7.  Resolving the class configuration only reads, and it never
    reports "not found": an error it returns is a lookup failure of
    another sort. *)
Theorem getGatewayClassConfigForGateway_never_not_found gateway c :
  (getGatewayClassConfigForGateway gateway c).2 = c
  ∧ match (getGatewayClassConfigForGateway gateway c).1 with
    | Err err => IsNotFound err = false
    | Ok _ => True
    end.
Proof.
  split; [apply getGatewayClassConfigForGateway_reads|].
  unfold getGatewayClassConfigForGateway, getGatewayClassForGateway,
    getGatewayClassConfigForGatewayClass, bindM, retM, IgnoreNotFound.
  destruct (GetGatewayClass _ c) as [gc|err]; simpl.
  - destruct (ParametersRef gc) as [ref|]; [|done].
    destruct (_ || _); [done|].
    destruct (GetGatewayClassConfig _ c) as [cfg|err]; [done|].
    by destruct (IsNotFound err) eqn:?.
  - by destruct (IsNotFound err) eqn:?.
Qed.

Section ConfigurationFound.

Context {GatewayConfig : Type}.
Variable NewMeshGatewayBuilder :
  MeshGateway → GatewayConfig → option GatewayClassConfig → MeshGatewayBuilder.

(** X6.  When the gateway's class is stored and refers, by group
    [MeshGroup] and kind GatewayClassConfig, to a configuration that is
    stored under the name of the reference, that configuration is the one
    resolved, and it is the one the builder is constructed with and that
    the steps of the reconcile run with. *)
Theorem getGatewayClassConfigForGateway_found
    r resource c gatewayClass ref config :
  GetGatewayClass (GatewayClassName resource) c = Ok gatewayClass →
  ParametersRef gatewayClass = Some ref →
  prGroup ref = MeshGroup →
  prKind ref = "GatewayClassConfig" →
  GetGatewayClassConfig (prName ref) c = Ok config →
  getGatewayClassConfigForGateway resource c = (Ok (Some config), c)
  ∧ onCreateUpdate NewMeshGatewayBuilder r resource c
    = runSteps
        (step resource (NewMeshGatewayBuilder resource r (Some config))
           (Some config) <$> childOrder) c.
Proof.
  intros Hget Href Hg Hk Hcfg.
  assert (getGatewayClassConfigForGateway resource c = (Ok (Some config), c))
    as H.
  { unfold getGatewayClassConfigForGateway, getGatewayClassForGateway,
      getGatewayClassConfigForGatewayClass, bindM. rewrite Hget. simpl.
    rewrite Href, !bool_decide_eq_true_2 by done. simpl. by rewrite Hcfg. }
  split; [done|]. by apply onCreateUpdate_resolved.
Qed.

End ConfigurationFound.

Lemma getGatewayClassConfigForGateway_found_witness :
  getGatewayClassConfigForGateway Scenario.gw Scenario.configuredCluster
  = (Ok (Some Scenario.storedConfig), Scenario.configuredCluster).
Proof.
  eapply (getGatewayClassConfigForGateway_found Scenario.NewMeshGatewayBuilder
            tt Scenario.gw Scenario.configuredCluster); reflexivity.
Defined.

(** ** What a reconcile writes *)

Lemma Get_Ok k key c o :
  Get k key c = Ok o →
  objects c !! (k, key) = Some o ∧ getErrors c !! (k, key) = None.
Proof.
  unfold Get. destruct (getErrors c !! _); [done|].
  destruct (objects c !! _); [|done]. by intros [= ->].
Qed.

Lemma Get_not_found k key c err :
  Get k key c = Err err → IsNotFound err = true →
  objects c !! (k, key) = None ∧ getErrors c !! (k, key) = None.
Proof.
  unfold Get. destruct (getErrors c !! _); [by intros [= <-]|].
  by destruct (objects c !! _).
Qed.

Lemma Get_stored k key c o :
  getErrors c !! (k, key) = None → objects c !! (k, key) = Some o →
  Get k key c = Ok o.
Proof. unfold Get. by intros -> ->. Qed.

Lemma refOf_eq o k (key : ObjectKey) :
  refOf o = (k, key) → kindOf o = k ∧ ObjectKeyFromObject o = key.
Proof. unfold refOf. by intros [= <- <-]. Qed.

(** A merge strategy that accepts the stamped object with nothing
    observed accepts it with anything observed. *)
Lemma mergeStrategy_observed builder gcc k stamped final o :
  mergeStrategy builder gcc k None stamped = Ok final →
  ∃ final', mergeStrategy builder gcc k (Some o) stamped = Ok final'.
Proof.
  destruct k; simpl; try (by eexists).
  - destruct stamped as [| | |t|]; try done. intros _.
    destruct o; simpl;
      rewrite ?mergeService_Some, ?mergeService_nil by tauto; by eexists.
  - destruct stamped; try done. by eexists.
Qed.

(** With a stored object at the key that is owned and carries the key in
    its own metadata, the upsert goes through and writes nothing. *)
Lemma upsert_on_owned resource builder gcc k desired stamped o final c :
  (k = Deployment → keepsMeta builder) →
  kindOf desired = k →
  SetControllerReference resource desired (scheme c) = Ok stamped →
  getErrors c !! (k, ObjectKeyFromObject desired) = None →
  objects c !! (k, ObjectKeyFromObject desired) = Some o →
  ownedBy resource (OwnerReferences (metaOf o)) = true →
  ObjectKeyFromObject o = ObjectKeyFromObject desired →
  mergeStrategy builder gcc k (Some o) stamped = Ok final →
  upsert resource builder gcc k desired c = (Ok tt, c).
Proof.
  intros Hkeeps Hk Hs Hge Hst Hown Hkey Hm. unfold upsert.
  rewrite (opIfNewOrOwned_stamped _ _ _ _ _ _ Hs).
  rewrite (Get_stored _ _ _ _ Hge Hst), Hown, opOf_mergeStrategy, Hm.
  destruct (upsert_final_ref _ _ _ _ _ _ _ _ _ Hkeeps Hk Hs Hm) as [Href _].
  unfold CreateOrUpdate.
  apply refOf_eq in Href as [Hkf Hkeyf].
  rewrite Hkf, Hkeyf, (Get_stored _ _ _ _ Hge Hst).
  unfold mutate, nopMutate. simpl. by rewrite !decide_True.
Qed.

(** What is known after an upsert that went through. *)
Lemma upsert_ok_facts resource builder gcc k desired c c1 :
  (k = Deployment → keepsMeta builder) →
  kindOf desired = k →
  upsert resource builder gcc k desired c = (Ok tt, c1) →
  ∃ stamped o final,
    SetControllerReference resource desired (scheme c) = Ok stamped
    ∧ getErrors c !! (k, ObjectKeyFromObject desired) = None
    ∧ objects c1 !! (k, ObjectKeyFromObject desired) = Some o
    ∧ ownedBy resource (OwnerReferences (metaOf o)) = true
    ∧ ObjectKeyFromObject o = ObjectKeyFromObject desired
    ∧ mergeStrategy builder gcc k (Some o) stamped = Ok final.
Proof.
  intros Hkeeps Hk. unfold upsert.
  destruct (SetControllerReference resource desired (scheme c))
    as [stamped|e] eqn:Hs.
  2:{ by rewrite (opIfNewOrOwned_not_stamped _ _ _ _ _ _ Hs). }
  rewrite (opIfNewOrOwned_stamped _ _ _ _ _ _ Hs).
  destruct (Get _ _ c) as [existing|err] eqn:Hget.
  - destruct (ownedBy _ _) eqn:Hown; [|done].
    apply Get_Ok in Hget as [Hst Hge].
    rewrite opOf_mergeStrategy.
    destruct (mergeStrategy _ _ _ _ _) as [final|] eqn:Hm; [|done].
    destruct (upsert_final_ref _ _ _ _ _ _ _ _ _ Hkeeps Hk Hs Hm) as [Href _].
    destruct (CreateOrUpdate final nopMutate c) as [[res|e] c0] eqn:Hw; [|done].
    intros [= <-]. revert Hw. unfold CreateOrUpdate.
    apply refOf_eq in Href as [Hkf Hkeyf].
    rewrite Hkf, Hkeyf, (Get_stored _ _ _ _ Hge Hst).
    unfold mutate, nopMutate. simpl.
    destruct (decide (ObjectKeyFromObject existing = ObjectKeyFromObject desired))
      as [Hkey|]; [|done].
    rewrite decide_True by done. intros [= _ <-]. eauto 10.
  - destruct (IsNotFound err) eqn:Hnf; [|done].
    apply (Get_not_found _ _ _ _ Hget) in Hnf as [Hst Hge].
    rewrite opOf_mergeStrategy.
    destruct (mergeStrategy _ _ _ _ _) as [final|] eqn:Hm; [|done].
    destruct (upsert_final_ref _ _ _ _ _ _ _ _ _ Hkeeps Hk Hs Hm)
      as [Href Hown].
    destruct (CreateOrUpdate final nopMutate c) as [[res|e] c0] eqn:Hw; [|done].
    intros [= <-].
    apply CreateOrUpdate_nop_cases in Hw
      as [[-> [[e [=]]|[o Ho]]]|(_ & _ & ->)].
    { rewrite Href in Ho. congruence. }
    destruct (mergeStrategy_observed _ _ _ _ _ final Hm) as [final' Hm'].
    exists stamped, final, final'. rewrite <- Href. simpl.
    rewrite lookup_insert_eq. repeat split; try done.
    + by rewrite Href.
    + by apply ownedBy_hasOwner.
    + by apply refOf_eq in Href as [_ ?].
Qed.

Lemma step_ok_facts resource builder gcc k c c1 :
  (k = Deployment → keepsMeta builder) →
  step resource builder gcc k c = (Ok tt, c1) →
  ∃ desired stamped o final,
    desiredOf builder k = Ok desired
    ∧ SetControllerReference resource desired (scheme c) = Ok stamped
    ∧ getErrors c !! (k, ObjectKeyFromObject desired) = None
    ∧ objects c1 !! (k, ObjectKeyFromObject desired) = Some o
    ∧ ownedBy resource (OwnerReferences (metaOf o)) = true
    ∧ ObjectKeyFromObject o = ObjectKeyFromObject desired
    ∧ mergeStrategy builder gcc k (Some o) stamped = Ok final.
Proof.
  intros Hkeeps [(? & ? & _)|(desired & Hd & _ & Hu)]%step_cases; [done|].
  eapply upsert_ok_facts in Hu as (stamped & o & final & ?); [|done|].
  - exists desired, stamped, o, final. tauto.
  - by eapply desiredOf_kind.
Qed.

(** After a run without error, every kind that was run has an object
    stored at the key of its desired object, and the gateway owns it. *)
Lemma runSteps_ok_owned resource builder gcc ks c c' :
  (Deployment ∈ ks → keepsMeta builder) →
  runSteps (step resource builder gcc <$> ks) c = (Ok tt, c') →
  ∀ k, k ∈ ks →
    ∃ desired o,
      desiredOf builder k = Ok desired
      ∧ objects c' !! (k, ObjectKeyFromObject desired) = Some o
      ∧ hasOwner resource o.
Proof.
  revert c. induction ks as [|k0 ks IH]; intros c Hkeeps Hrun k Hin.
  { by apply elem_of_nil in Hin. }
  rewrite runSteps_cons in Hrun.
  destruct (step resource builder gcc k0 c) as [[[]|e] c1] eqn:Hstep; [|done].
  apply elem_of_cons in Hin as [->|Hin].
  - apply step_ok_facts in Hstep
      as (desired & stamped & o & final & Hd & _ & _ & Ho & Hown & _).
    2:{ intros ->. apply Hkeeps. left. }
    apply runSteps_frame in Hrun as (_ & Hsub & _).
    exists desired, o. split; [done|]. split.
    + by eapply lookup_weaken.
    + by apply ownedBy_hasOwner.
  - eapply IH; [|done..]. intros ?. apply Hkeeps. by right.
Qed.



Lemma step_touches resource builder gcc k c r c' :
  (k = Deployment → keepsMeta builder) →
  step resource builder gcc k c = (r, c') →
  ∀ ρ : Ref,
    objects c' !! ρ = objects c !! ρ
    ∨ ∃ desired,
        desiredOf builder k = Ok desired
        ∧ ρ = (k, ObjectKeyFromObject desired)
        ∧ objects c !! ρ = None.
Proof.
  intros Hkeeps [(? & _ & ->)|(desired & Hd & _ & Hu)]%step_cases ρ;
    [by left|].
  apply upsert_cases in Hu
    as [(? & ? & _)|(st & obs & final & Hs & Hm & _ & Hw)]; [done|].
  destruct Hw as [[-> _]|[Hnone ->]]; [by left|].
  destruct (upsert_final_ref _ _ _ _ _ _ _ _ _ Hkeeps
              (desiredOf_kind _ _ _ Hd) Hs Hm) as [Href _].
  simpl. destruct (decide (refOf final = ρ)) as [<-|Hne].
  - right. exists desired. by rewrite <- Href.
  - left. by apply lookup_insert_ne.
Qed.

Section Writes.

Context {GatewayConfig : Type}.
Variable NewMeshGatewayBuilder :
  MeshGateway → GatewayConfig → option GatewayClassConfig → MeshGatewayBuilder.


(** X9.  [onCreateUpdate] only ever adds objects.  Whatever it returns,
    every object that was stored before is stored afterwards, unchanged,
    and the rest of the cluster (classes, configurations) is as it was:
    nothing is deleted, and no stored object is overwritten, be it owned
    by the gateway or not. *)
Theorem onCreateUpdate_only_adds r resource c :
  objects c ⊆ objects (onCreateUpdate NewMeshGatewayBuilder r resource c).2
  ∧ (onCreateUpdate NewMeshGatewayBuilder r resource c).2
    = setObjects c
        (objects (onCreateUpdate NewMeshGatewayBuilder r resource c).2).
Proof.
  rewrite onCreateUpdate_pipeline.
  pose proof (getGatewayClassConfigForGateway_reads resource c) as Hc.
  destruct (getGatewayClassConfigForGateway resource c) as [[gcc|e] c0];
    simpl in Hc; subst c0.
  - destruct (runSteps _ c) as [res c'] eqn:Hrun.
    apply runSteps_frame in Hrun as (? & ? & _). done.
  - simpl. by rewrite setObjects_id.
Qed.

(** X10.  Provided the Deployment merge hands back the metadata of the
    desired Deployment, a key whose content differs after [onCreateUpdate]
    is the key of the desired object of one of the five kinds, and nothing
    was stored at it before: a reconcile writes at no more than five keys,
    all of them free. *)
Theorem onCreateUpdate_writes_desired_keys r resource c (ρ : Ref) :
  (∀ gcc, keepsMeta (NewMeshGatewayBuilder resource r gcc)) →
  objects (onCreateUpdate NewMeshGatewayBuilder r resource c).2 !! ρ
  ≠ objects c !! ρ →
  objects c !! ρ = None
  ∧ ∃ gcc desired,
      (getGatewayClassConfigForGateway resource c).1 = Ok gcc
      ∧ ρ.1 ∈ childOrder
      ∧ desiredOf (NewMeshGatewayBuilder resource r gcc) ρ.1 = Ok desired
      ∧ ρ.2 = ObjectKeyFromObject desired.
Proof.
  intros Hkeeps. rewrite onCreateUpdate_pipeline.
  pose proof (getGatewayClassConfigForGateway_reads resource c) as Hc.
  destruct (getGatewayClassConfigForGateway resource c) as [[gcc|e] c0];
    simpl in Hc; subst c0; [|done].
  set (builder := NewMeshGatewayBuilder resource r gcc).
  assert (Hgen : ∀ ks c1 res c',
    runSteps (step resource builder gcc <$> ks) c1 = (res, c') →
    objects c' !! ρ ≠ objects c1 !! ρ →
    objects c1 !! ρ = None
    ∧ ∃ desired, ρ.1 ∈ ks ∧ desiredOf builder ρ.1 = Ok desired
                 ∧ ρ.2 = ObjectKeyFromObject desired).
  { induction ks as [|k ks IH]; intros c1 res c'.
    - by intros [= <- <-].
    - rewrite runSteps_cons.
      destruct (step resource builder gcc k c1) as [[[]|e] c2] eqn:Hstep.
      + intros Hrun Hne.
        destruct (step_touches _ _ _ _ _ _ _ (λ _, Hkeeps gcc) Hstep ρ)
          as [Hsame|(desired & Hd & -> & Hnone)].
        * rewrite <- Hsame in *.
          destruct (IH _ _ _ Hrun Hne) as (? & desired & ? & ?).
          split; [done|]. exists desired. split; [by right|done].
        * split; [done|]. exists desired. split; [left|done].
      + intros [= <- <-] Hne.
        destruct (step_touches _ _ _ _ _ _ _ (λ _, Hkeeps gcc) Hstep ρ)
          as [Hsame|(desired & Hd & -> & Hnone)]; [done|].
        split; [done|]. exists desired. split; [left|done]. }
  destruct (runSteps _ c) as [res c'] eqn:Hrun. simpl. intros Hne.
  destruct (Hgen _ _ _ _ Hrun Hne) as (? & desired & ? & ? & ?).
  split; [done|]. by exists gcc, desired.
Qed.

(** X11.  Provided the Deployment merge hands back the metadata of the
    desired Deployment, a reconcile that returns no error leaves, for each
    of the five kinds, an object stored at the key of the desired object,
    with the gateway among its owners. *)
Theorem onCreateUpdate_ok_children_owned r resource c gcc :
  (∀ gcc, keepsMeta (NewMeshGatewayBuilder resource r gcc)) →
  getGatewayClassConfigForGateway resource c = (Ok gcc, c) →
  (onCreateUpdate NewMeshGatewayBuilder r resource c).1 = Ok tt →
  ∀ k, k ∈ childOrder →
    ∃ desired o,
      desiredOf (NewMeshGatewayBuilder resource r gcc) k = Ok desired
      ∧ objects (onCreateUpdate NewMeshGatewayBuilder r resource c).2
          !! (k, ObjectKeyFromObject desired) = Some o
      ∧ hasOwner resource o.
Proof.
  intros Hkeeps Hgcc. rewrite (onCreateUpdate_resolved _ _ _ _ _ Hgcc).
  destruct (runSteps _ c) as [res c'] eqn:Hrun. simpl. intros -> k Hk.
  by eapply runSteps_ok_owned.
Qed.

(** X14.  Nothing is rolled back, whatever the failure.  When the step of
    kind [k] fails after the steps of the kinds before it went through,
    the cluster that [onCreateUpdate] leaves holds, for every earlier
    kind, an object at the key of its desired object, owned by the
    gateway. *)
Theorem onCreateUpdate_failure_keeps_earlier
    r resource c gcc (before after : list Kind) (k : Kind) e c1 c2 :
  getGatewayClassConfigForGateway resource c = (Ok gcc, c) →
  childOrder = (before ++ k :: after)%list →
  runSteps (step resource (NewMeshGatewayBuilder resource r gcc) gcc <$> before) c
  = (Ok tt, c1) →
  step resource (NewMeshGatewayBuilder resource r gcc) gcc k c1 = (Err e, c2) →
  onCreateUpdate NewMeshGatewayBuilder r resource c = (Err e, c1)
  ∧ ∀ k', k' ∈ before →
      ∃ desired o,
        desiredOf (NewMeshGatewayBuilder resource r gcc) k' = Ok desired
        ∧ objects c1 !! (k', ObjectKeyFromObject desired) = Some o
        ∧ hasOwner resource o.
Proof.
  intros Hgcc Horder Hbefore Hstep.
  pose proof Hstep as [(? & _ & ->)|(? & _ & ? & _)]%step_cases; [|done].
  split.
  - rewrite (onCreateUpdate_resolved _ _ _ _ _ Hgcc), Horder.
    by eapply runSteps_app_fail.
  - eapply runSteps_ok_owned; [|done].
    intros Hin. exfalso.
    pose proof childOrder_NoDup as Hnd. rewrite Horder in Hnd.
    assert (Deployment ∈ after ∨ Deployment = k) as Hlast.
    { assert (last childOrder = Some Deployment) as Hl by done.
      rewrite Horder, last_app in Hl. rewrite last_cons in Hl.
      destruct (last after) eqn:Ha.
      - left. injection Hl as ->. by eapply last_Some_elem_of.
      - right. by injection Hl. }
    apply NoDup_app in Hnd as (_ & Hdisj & _).
    apply (Hdisj _ Hin). destruct Hlast as [?| ->]; [by right|left].
Qed.

End Writes.


Lemma onCreateUpdate_writes_desired_keys_witness :
  objects Scenario.emptyCluster !! Scenario.serviceRef = None
  ∧ ∃ gcc desired,
      (getGatewayClassConfigForGateway Scenario.gw Scenario.emptyCluster).1
      = Ok gcc
      ∧ Service ∈ childOrder
      ∧ desiredOf (Scenario.NewMeshGatewayBuilder Scenario.gw tt gcc) Service
        = Ok desired
      ∧ ("consul", "gw") = ObjectKeyFromObject desired.
Proof.
  apply (onCreateUpdate_writes_desired_keys Scenario.NewMeshGatewayBuilder tt
           Scenario.gw Scenario.emptyCluster Scenario.serviceRef).
  - intros gcc. apply Scenario_builder_keepsMeta.
  - vm_compute. discriminate.
Defined.

Lemma onCreateUpdate_ok_children_owned_witness :
  ∃ desired o,
    desiredOf (Scenario.NewMeshGatewayBuilder Scenario.gw tt None) Deployment
    = Ok desired
    ∧ objects Scenario.createdCluster
        !! (Deployment, ObjectKeyFromObject desired) = Some o
    ∧ hasOwner Scenario.gw o.
Proof.
  apply (onCreateUpdate_ok_children_owned Scenario.NewMeshGatewayBuilder tt
           Scenario.gw Scenario.emptyCluster None).
  - intros gcc. apply Scenario_builder_keepsMeta.
  - reflexivity.
  - vm_compute. reflexivity.
  - do 4 right. left.
Defined.

Lemma onCreateUpdate_failure_keeps_earlier_witness :
  ∃ desired o,
    desiredOf (Scenario.NewMeshGatewayBuilder Scenario.gw tt None) RoleBinding
    = Ok desired
    ∧ objects Scenario.manualClusterWithRBAC
        !! (RoleBinding, ObjectKeyFromObject desired) = Some o
    ∧ hasOwner Scenario.gw o.
Proof.
  destruct (onCreateUpdate_failure_keeps_earlier Scenario.NewMeshGatewayBuilder
              tt Scenario.gw Scenario.manualCluster None Scenario.rbacKinds
              [Deployment] Service
              (Errorf "unable to create service" errResourceNotOwned)
              Scenario.manualClusterWithRBAC Scenario.manualClusterWithRBAC)
    as [_ Hkept].
  - reflexivity.
  - reflexivity.
  - vm_compute. reflexivity.
  - vm_compute. reflexivity.
  - apply Hkept. do 2 right. left.
Defined.

(** ** Creating the children *)






Section Creation.

Context {GatewayConfig : Type}.
Variable NewMeshGatewayBuilder :
  MeshGateway → GatewayConfig → option GatewayClassConfig → MeshGatewayBuilder.


End Creation.



(** ** Reconciling again after a success *)

Lemma step_again resource builder gcc k c c1 d :
  (k = Deployment → keepsMeta builder) →
  step resource builder gcc k c = (Ok tt, c1) →
  d = setObjects c1 (objects d) →
  objects c1 ⊆ objects d →
  step resource builder gcc k d = (Ok tt, d).
Proof.
  intros Hkeeps Hstep Hd Hsub.
  pose proof (step_sameExcept _ _ _ _ _ _ _ Hstep) as (Hc1 & _ & _).
  apply step_ok_facts in Hstep
    as (desired & stamped & o & final & Hdes & Hs & Hge & Ho & Hown & Hkey & Hm);
    [|done].
  rewrite (step_built _ _ _ _ _ _ Hdes).
  rewrite (upsert_on_owned resource builder gcc k desired stamped o final d);
    try done.
  - by eapply desiredOf_kind.
  - by rewrite Hd, Hc1.
  - by rewrite Hd, Hc1.
  - by eapply lookup_weaken.
Qed.

Lemma runSteps_again resource builder gcc ks c cf d :
  keepsMeta builder →
  runSteps (step resource builder gcc <$> ks) c = (Ok tt, cf) →
  d = setObjects cf (objects d) →
  objects cf ⊆ objects d →
  runSteps (step resource builder gcc <$> ks) d = (Ok tt, d).
Proof.
  intros Hkeeps. revert c. induction ks as [|k ks IH]; intros c; [done|].
  rewrite !runSteps_cons.
  destruct (step resource builder gcc k c) as [[[]|e] c1] eqn:Hstep; [|done].
  intros Hrun Hd Hsub.
  pose proof (runSteps_frame _ _ _ _ _ _ _ Hrun) as (Hcf & Hsub1 & _).
  rewrite (step_again resource builder gcc k c c1 d (λ _, Hkeeps) Hstep).
  - by eapply IH.
  - by rewrite Hd, Hcf.
  - by etrans.
Qed.

Section Stability.

Context {GatewayConfig : Type}.
Variable NewMeshGatewayBuilder :
  MeshGateway → GatewayConfig → option GatewayClassConfig → MeshGatewayBuilder.

(** X13.  Provided the Deployment merge hands back the metadata of the
    desired Deployment, a reconcile that returned no error is followed,
    when nothing else touches the cluster, by a reconcile that returns no
    error either and leaves the cluster exactly as it found it. *)
Theorem onCreateUpdate_stable r resource c :
  (∀ gcc, keepsMeta (NewMeshGatewayBuilder resource r gcc)) →
  (onCreateUpdate NewMeshGatewayBuilder r resource c).1 = Ok tt →
  onCreateUpdate NewMeshGatewayBuilder r resource
    (onCreateUpdate NewMeshGatewayBuilder r resource c).2
  = (Ok tt, (onCreateUpdate NewMeshGatewayBuilder r resource c).2).
Proof.
  intros Hkeeps.
  pose proof (getGatewayClassConfigForGateway_reads resource c) as Hc.
  destruct (getGatewayClassConfigForGateway resource c) as [[gcc|e] c0] eqn:Hgcc;
    simpl in Hc; subst c0.
  2:{ rewrite (onCreateUpdate_unresolved _ r resource c e); [done|].
      by rewrite Hgcc. }
  rewrite (onCreateUpdate_resolved _ _ _ _ _ Hgcc).
  destruct (runSteps _ c) as [res cf] eqn:Hrun. simpl. intros ->.
  pose proof (runSteps_frame _ _ _ _ _ _ _ Hrun) as (Hcf & _ & _).
  assert (getGatewayClassConfigForGateway resource cf = (Ok gcc, cf)) as Hgcc'.
  { pose proof (getGatewayClassConfigForGateway_reads resource cf) as Hc'.
    pose proof (getGatewayClassConfigForGateway_setObjects resource c
                  (objects cf)) as H1.
    rewrite <- Hcf, Hgcc in H1.
    destruct (getGatewayClassConfigForGateway resource cf).
    simpl in *. congruence. }
  rewrite (onCreateUpdate_resolved _ _ _ _ _ Hgcc').
  eapply runSteps_again; [apply Hkeeps|exact Hrun| |done].
  by rewrite setObjects_id.
Qed.

End Stability.

Lemma onCreateUpdate_stable_witness :
  onCreateUpdate Scenario.NewMeshGatewayBuilder tt Scenario.gw
    Scenario.createdCluster
  = (Ok tt, Scenario.createdCluster).
Proof.
  apply (onCreateUpdate_stable Scenario.NewMeshGatewayBuilder tt Scenario.gw
           Scenario.emptyCluster).
  - intros gcc. apply Scenario_builder_keepsMeta.
  - vm_compute. reflexivity.
Defined.

(** ** Create, then find *)

(** X15.  The plain upsert, from a free key: when the object can be
    stamped, the lookup reports that nothing is stored at its key and the
    server accepts the write, [opIfNewOrOwned] with [upsertOp] stores the
    stamped object under the kind, namespace and name of the object and
    touches no other key; a lookup then returns that object, and a second
    upsert of the same object finds it, accepts it as owned, and changes
    nothing. *)
Theorem upsertOp_create_then_found
    gateway (k : Kind) (writeSource stamped : Object) (c : Client) :
  kindOf writeSource = k →
  SetControllerReference gateway writeSource (scheme c) = Ok stamped →
  Get k (ObjectKeyFromObject writeSource) c = Err StatusNotFound →
  writeErrors c !! (k, ObjectKeyFromObject writeSource) = None →
  ∃ c',
    opIfNewOrOwned gateway k writeSource upsertOp c = (Ok tt, c')
    ∧ Get k (ObjectKeyFromObject writeSource) c' = Ok stamped
    ∧ (∀ ρ : Ref, ρ ≠ (k, ObjectKeyFromObject writeSource) →
                  objects c' !! ρ = objects c !! ρ)
    ∧ opIfNewOrOwned gateway k writeSource upsertOp c' = (Ok tt, c').
Proof.
  intros Hk Hs Hget Hwe.
  destruct (SetControllerReference_key _ _ _ _ Hs) as [Hkind Hkey].
  destruct (Get_not_found _ _ _ _ Hget eq_refl) as [Hnone Hge].
  destruct (SetControllerReference_Ok _ _ _ _ Hs) as (_ & _ & Hown).
  set (ρ := (k, ObjectKeyFromObject writeSource)) in *.
  assert (Href : refOf stamped = ρ) by (unfold refOf, ρ; congruence).
  exists (setObjects c (<[ρ := stamped]> (objects c))).
  assert (Hget' : Get k (ObjectKeyFromObject writeSource)
                    (setObjects c (<[ρ := stamped]> (objects c)))
                  = Ok stamped).
  { apply Get_stored; [done|]. simpl. apply lookup_insert_eq. }
  split; [|split; [done|split]].
  - rewrite (opIfNewOrOwned_stamped _ _ _ _ _ _ Hs), Hget. cbn [IsNotFound].
    unfold upsertOp, bindM, CreateOrUpdate.
    rewrite Hkind, Hk, Hkey, Hget. cbn [IsNotFound negb].
    unfold mutate, nopMutate. simpl. rewrite decide_True by done.
    unfold Create. by rewrite Href, Hwe, Hnone.
  - intros ρ' Hne. simpl. by apply lookup_insert_ne.
  - rewrite (opIfNewOrOwned_stamped _ _ _ _ _ stamped) by done.
    rewrite Hget'. apply ownedBy_hasOwner in Hown. rewrite Hown.
    unfold upsertOp, bindM, CreateOrUpdate.
    rewrite Hkind, Hk, Hkey, Hget'.
    unfold mutate, nopMutate. simpl. by rewrite !decide_True.
Qed.

Lemma upsertOp_create_then_found_witness :
  ∃ c',
    opIfNewOrOwned Scenario.gw Role
      (ObjRole (bRole (Scenario.builder (Ok Scenario.desiredDeployment))))
      upsertOp Scenario.manualCluster = (Ok tt, c')
    ∧ is_Some (objects c' !! (Role, ("consul", "gw")))
    ∧ objects c' !! Scenario.serviceRef
      = Some (ObjService Scenario.manualService).
Proof.
  destruct (upsertOp_create_then_found Scenario.gw Role
              (ObjRole (bRole (Scenario.builder (Ok Scenario.desiredDeployment))))
              (ObjRole {| roleMeta := Scenario.ownedMeta; roleRules := ["get"] |})
              Scenario.manualCluster)
    as (c' & Hrun & Hget & Hother & _); try reflexivity.
  exists c'. split; [exact Hrun|]. split.
  - apply Get_Ok in Hget as [Hstored _]. eexists. exact Hstored.
  - rewrite Hother; [reflexivity|discriminate].
Defined.

(** ** The entry point *)

Lemma setClient_id cl : setClient cl (client cl) = cl.
Proof. by destruct cl. Qed.

Section Entry.

Context {GatewayConfig : Type}.
Variable NewMeshGatewayBuilder :
  MeshGateway → GatewayConfig → option GatewayClassConfig → MeshGatewayBuilder.
Variable ReconcileResource :
  ObjectKey → Cluster → (CtrlResult * option error) * Cluster.

Lemma onCreateUpdate_subseteq r resource c :
  objects c ⊆ objects (onCreateUpdate NewMeshGatewayBuilder r resource c).2.
Proof.
  rewrite onCreateUpdate_pipeline.
  pose proof (getGatewayClassConfigForGateway_reads resource c) as Hc.
  destruct (getGatewayClassConfigForGateway resource c) as [[gcc|e] c0];
    simpl in Hc; subst c0; [|done].
  destruct (runSteps _ c) as [res c'] eqn:Hrun.
  by apply runSteps_frame in Hrun as (_ & ? & _).
Qed.

(** X16.  When the MeshGateway cannot be fetched, [Reconcile] stops at
    once, with the empty result and the cluster untouched: without an
    error when the gateway is not found, with the error of the lookup
    otherwise.  Neither the hooks nor [ReconcileResource] run. *)
Theorem Reconcile_fetch_failure r req cl err :
  GetMeshGateway req cl = Err err →
  Reconcile NewMeshGatewayBuilder ReconcileResource r req cl
  = ((emptyResult, if IsNotFound err then None else Some err), cl).
Proof.
  intros Hget. unfold Reconcile, IgnoreNotFound. rewrite Hget.
  by destruct (IsNotFound err).
Qed.

(** X17.  For a MeshGateway that carries a deletion timestamp,
    [Reconcile] upserts nothing: it hands the cluster, exactly as it found
    it, to [ReconcileResource] and returns what that returns, whether or
    not the children of the gateway exist or are owned. *)
Theorem Reconcile_deleting r req cl resource :
  GetMeshGateway req cl = Ok resource →
  IsZero (DeletionTimestamp resource) = false →
  Reconcile NewMeshGatewayBuilder ReconcileResource r req cl
  = ReconcileResource req cl.
Proof.
  intros Hget Hdel. unfold Reconcile. rewrite Hget, Hdel. simpl.
  by rewrite setClient_id.
Qed.

(** X18.  For a MeshGateway without deletion timestamp, [Reconcile] runs
    [onCreateUpdate] on it.  An error of [onCreateUpdate] is returned as it
    is, with the empty result, and [ReconcileResource] does not run;
    otherwise [ReconcileResource] runs on the cluster that
    [onCreateUpdate] left and its result is returned.  In both cases every
    child stored before is still stored, unchanged, and the MeshGateways
    are as they were. *)
Theorem Reconcile_live r req cl resource :
  GetMeshGateway req cl = Ok resource →
  IsZero (DeletionTimestamp resource) = true →
  ∃ c',
    (onCreateUpdate NewMeshGatewayBuilder r (storedGateway resource)
       (client cl)).2 = c'
    ∧ objects (client cl) ⊆ objects c'
    ∧ meshGateways (setClient cl c') = meshGateways cl
    ∧ Reconcile NewMeshGatewayBuilder ReconcileResource r req cl
      = match (onCreateUpdate NewMeshGatewayBuilder r (storedGateway resource)
                 (client cl)).1 with
        | Err err => ((emptyResult, Some err), setClient cl c')
        | Ok _ => ReconcileResource req (setClient cl c')
        end.
Proof.
  intros Hget Hlive. eexists. split; [reflexivity|].
  split; [apply onCreateUpdate_subseteq|]. split; [done|].
  unfold Reconcile. rewrite Hget, Hlive. simpl.
  by destruct (onCreateUpdate _ _ _ _) as [[] ?].
Qed.

End Entry.

Lemma Reconcile_fetch_failure_witness :
  Reconcile Scenario.NewMeshGatewayBuilder Scenario.requeueResource tt
    ("consul", "other") Scenario.liveCluster
  = ((emptyResult, None), Scenario.liveCluster).
Proof.
  apply (Reconcile_fetch_failure Scenario.NewMeshGatewayBuilder
           Scenario.requeueResource tt ("consul", "other")
           Scenario.liveCluster StatusNotFound).
  reflexivity.
Defined.

Lemma Reconcile_deleting_witness :
  Reconcile Scenario.NewMeshGatewayBuilder Scenario.requeueResource tt
    Scenario.gwKey Scenario.deletingCluster
  = (({| Requeue := true; RequeueAfter := 0 |}, None),
     Scenario.deletingCluster).
Proof.
  rewrite (Reconcile_deleting Scenario.NewMeshGatewayBuilder
             Scenario.requeueResource tt Scenario.gwKey
             Scenario.deletingCluster
             {| storedGateway := Scenario.gw;
                DeletionTimestamp := Some 1700000000%Z |});
    reflexivity.
Defined.

Lemma Reconcile_live_witness :
  Reconcile Scenario.NewMeshGatewayBuilder Scenario.requeueResource tt
    Scenario.gwKey Scenario.blockedCluster
  = ((emptyResult,
      Some (Errorf "unable to create service" errResourceNotOwned)),
     setClient Scenario.blockedCluster Scenario.manualClusterWithRBAC).
Proof.
  destruct (Reconcile_live Scenario.NewMeshGatewayBuilder
              Scenario.requeueResource tt Scenario.gwKey
              Scenario.blockedCluster
              {| storedGateway := Scenario.gw; DeletionTimestamp := None |}
              eq_refl eq_refl)
    as (c' & Hc' & _ & _ & Hrun).
  rewrite Hrun, <- Hc'. vm_compute. reflexivity.
Defined.

(** ** The type assertions of the merge operations *)

(** X19.  In [mergeServiceOp] and [mergeDeploymentOp], an existing object
    of another type than the one asserted is treated exactly as no
    existing object: the guard on the first assertion never fires.  A
    built object of another type is refused with "unable to infer built
    ... type", and nothing is written. *)
Theorem merge_ops_type_assertions builder gcc :
  (∀ o object c,
     kindOf o ≠ Service →
     mergeServiceOp (Some o) object c = mergeServiceOp None object c)
  ∧ (∀ existing object c,
       kindOf object ≠ Service →
       mergeServiceOp existing object c
       = (Err (ErrorNew "unable to infer built service type"), c))
  ∧ (∀ o object c,
       kindOf o ≠ Deployment →
       mergeDeploymentOp builder gcc (Some o) object c
       = mergeDeploymentOp builder gcc None object c)
  ∧ (∀ existing object c,
       kindOf object ≠ Deployment →
       mergeDeploymentOp builder gcc existing object c
       = (Err (ErrorNew "unable to infer built deployment type"), c)).
Proof.
  split; [|split; [|split]].
  - intros o object c Hk. by destruct o.
  - intros existing object c Hk. unfold mergeServiceOp.
    destruct existing as [[]|], object; try done.
  - intros o object c Hk. by destruct o.
  - intros existing object c Hk. unfold mergeDeploymentOp.
    destruct existing as [[]|], object; try done.
Qed.

Lemma merge_ops_type_assertions_witness :
  mergeServiceOp (Some (ObjDeployment Scenario.desiredDeployment))
    (ObjService Scenario.stampedService) Scenario.emptyCluster
  = mergeServiceOp None (ObjService Scenario.stampedService)
      Scenario.emptyCluster
  ∧ mergeDeploymentOp (Scenario.builder (Ok Scenario.desiredDeployment)) None
      None (ObjService Scenario.stampedService) Scenario.emptyCluster
    = (Err (ErrorNew "unable to infer built deployment type"),
       Scenario.emptyCluster).
Proof.
  destruct (merge_ops_type_assertions
              (Scenario.builder (Ok Scenario.desiredDeployment)) None)
    as (Hexisting & _ & _ & Hbuilt).
  split.
  - apply Hexisting. discriminate.
  - apply Hbuilt. discriminate.
Defined.
